(** * Flight tracker: the data-refresh, filter and selection logic of App.tsx

    The repository holds two versions of the [FlightTracker] component.
    [LiveVariant] is the one that fetches OpenSky state vectors and falls
    back to generated flights; [DualMode] is the flight/airport one that only
    ever generates its data and nudges the flights every five seconds.

    Conventions of the embedding.
    - A JavaScript string is the list of its UTF-16 code units.
    - A JavaScript number is an exact rational: the arithmetic of the source
      is read in exact arithmetic, so rounding of IEEE doubles is not part of
      the model, and neither are NaN and the infinities (no operation of the
      source produces them from finite operands).
    - [Math.random], [Date.now], [String.prototype.toLowerCase] and
      [Number.prototype.toString(16)] belong to the host; they are the fields
      of the class [Host].  The k-th call of [Math.random] returns
      [random k]; the number of calls made so far is part of the [World].
    - Handlers run in a small monad with state and exceptions, in which an
      exception keeps the state reached so far, as in JavaScript.
    - A React state is recorded once the effects have been flushed: a handler
      that changes a dependency of the [handleSearch] effect is followed by
      [handleSearch]. *)

From Stdlib Require Import List Bool String Ascii NArith ZArith QArith.
From Stdlib Require Import Qround Qminmax Qabs Lqa Lia DecimalString.
Import ListNotations.

Set Implicit Arguments.

(** ** Strings *)

Definition jsstring : Type := list N.

Definition str (s : string) : jsstring :=
  List.map N_of_ascii (list_ascii_of_string s).

Fixpoint jsstring_eqb (s t : jsstring) : bool :=
  match s, t with
  | [], [] => true
  | c :: s', d :: t' => N.eqb c d && jsstring_eqb s' t'
  | _, _ => false
  end.

(** WhiteSpace and LineTerminator code units, the ones [trim] strips. *)
Definition isWhiteSpace (c : N) : bool :=
  (N.leb 9 c && N.leb c 13) || N.eqb c 32 || N.eqb c 160 || N.eqb c 5760
  || (N.leb 8192 c && N.leb c 8202) || N.eqb c 8232 || N.eqb c 8233
  || N.eqb c 8239 || N.eqb c 8287 || N.eqb c 12288 || N.eqb c 65279.

Fixpoint trimStart (s : jsstring) : jsstring :=
  match s with
  | [] => []
  | c :: s' => if isWhiteSpace c then trimStart s' else s
  end.

Definition trimEnd (s : jsstring) : jsstring := rev (trimStart (rev s)).

Definition trim (s : jsstring) : jsstring := trimEnd (trimStart s).

Definition isEmpty (s : jsstring) : bool :=
  match s with [] => true | _ :: _ => false end.

Fixpoint startsWith (s t : jsstring) {struct t} : bool :=
  match t, s with
  | [], _ => true
  | _ :: _, [] => false
  | d :: t', c :: s' => N.eqb c d && startsWith s' t'
  end.

(** [s.includes(t)] *)
Fixpoint includes (s t : jsstring) : bool :=
  startsWith s t ||
  match s with
  | [] => false
  | _ :: s' => includes s' t
  end.

(** [s.substr(start, length)] and [s.slice(0, n)] for non-negative arguments *)
Definition substr (s : jsstring) (start len : nat) : jsstring :=
  firstn len (skipn start s).

Definition slice0 (s : jsstring) (n : nat) : jsstring := firstn n s.

(** Decimal rendering of an integer, as a template literal or [toString()]
    renders an integral number. *)
Definition decimal (z : Z) : jsstring :=
  str (NilZero.string_of_int (Z.to_int z)).

(** [String.fromCharCode(n)] for an integral [n]: one code unit, modulo 2^16. *)
Definition fromCharCode (n : Z) : jsstring := [Z.to_N (n mod 65536)].

(** ** Numbers *)

Definition Math_floor (x : Q) : Z := Qfloor x.

Definition Math_max (x y : Q) : Q := Qmax x y.
Definition Math_min (x y : Q) : Q := Qmin x y.

Definition Qgtb (x y : Q) : bool := negb (Qle_bool x y).

(** Truncation toward zero and the [%] operator, whose result takes the sign
    of the dividend. *)
Definition Qtrunc (x : Q) : Z :=
  if Qle_bool 0 x then Qfloor x else Qceiling x.

Definition js_rem (x y : Q) : Q := x - y * inject_Z (Qtrunc (x / y)).

Definition zeroPad (width : nat) (digits : jsstring) : jsstring :=
  repeat 48%N (width - List.length digits) ++ digits.

(** [x.toFixed(f)]: the integer n nearest to |x|*10^f, the larger one on a
    tie, printed with f fractional digits and the sign of x. *)
Definition toFixed (x : Q) (f : nat) : jsstring :=
  let scale := (10 ^ Z.of_nat f)%Z in
  let n := Qfloor (Qabs x * inject_Z scale + (1 # 2)) in
  let sign := if Qle_bool 0 x then [] else str "-" in
  let whole := decimal (n / scale) in
  let frac := zeroPad f (decimal (n mod scale)) in
  match f with
  | O => sign ++ whole
  | S _ => sign ++ whole ++ str "." ++ frac
  end.

(** ** Run-time values *)

#[local] Set Warnings "-register-all".

Inductive jsval : Type :=
| VUndefined
| VNull
| VBool (b : bool)
| VNum (q : Q)
| VStr (s : jsstring)
| VArr (elements : list jsval)
| VObj (properties : list (jsstring * jsval)).

Definition truthy (v : jsval) : bool :=
  match v with
  | VUndefined | VNull => false
  | VBool b => b
  | VNum q => negb (Qeq_bool q 0)
  | VStr s => negb (isEmpty s)
  | VArr _ | VObj _ => true
  end.

Definition isArray (v : jsval) : bool :=
  match v with VArr _ => true | _ => false end.

Fixpoint lookup_property (name : jsstring) (props : list (jsstring * jsval))
  : jsval :=
  match props with
  | [] => VUndefined
  | (k, v) :: rest =>
      if jsstring_eqb k name then v else lookup_property name rest
  end.

(** [a[i]] on a list held by the program; [undefined] out of range. *)
Definition js_index (l : list jsval) (i : Z) : jsval :=
  if (i <? 0)%Z then VUndefined else nth (Z.to_nat i) l VUndefined.

(** ** Effects *)

Inductive exn : Type :=
| TypeError
| Error (message : jsstring)
| RequestFailed.

Inductive completion (A : Type) : Type :=
| Normal (a : A)
| Throw (e : exn).
Arguments Throw {A} e.

Definition andThen {A B : Type} (c : completion A) (k : A -> completion B)
  : completion B :=
  match c with
  | Normal a => k a
  | Throw e => Throw e
  end.

Definition Eff (S A : Type) : Type := S -> completion A * S.

Definition ret {S A : Type} (a : A) : Eff S A := fun s => (Normal a, s).

Definition bind {S A B : Type} (m : Eff S A) (k : A -> Eff S B) : Eff S B :=
  fun s =>
    match m s with
    | (Normal a, s') => k a s'
    | (Throw e, s') => (Throw e, s')
    end.

Definition throw {S A : Type} (e : exn) : Eff S A := fun s => (Throw e, s).

Definition get {S : Type} : Eff S S := fun s => (Normal s, s).

Definition modify {S : Type} (f : S -> S) : Eff S unit :=
  fun s => (Normal tt, f s).

Definition try_catch {S A : Type} (body : Eff S A) (handler : exn -> Eff S A)
  : Eff S A :=
  fun s =>
    match body s with
    | (Normal a, s') => (Normal a, s')
    | (Throw e, s') => handler e s'
    end.

Definition finally {S A : Type} (body : Eff S A) (cleanup : Eff S unit)
  : Eff S A :=
  fun s =>
    match body s with
    | (c, s') =>
        match cleanup s' with
        | (Normal _, s'') => (c, s'')
        | (Throw e, s'') => (Throw e, s'')
        end
    end.

Declare Scope eff_scope.
Delimit Scope eff_scope with eff.
Notation "x <- m ;; k" := (bind m (fun x => k))
  (at level 61, m at next level, right associativity) : eff_scope.
Notation "m ;; k" := (bind m (fun _ => k))
  (at level 61, right associativity) : eff_scope.
Open Scope eff_scope.

Declare Scope completion_scope.
Delimit Scope completion_scope with completion.
Notation "x <- m ;; k" := (andThen m (fun x => k))
  (at level 61, m at next level, right associativity) : completion_scope.

(** An expression without effects on the state, inside a handler. *)
Definition lift {S A : Type} (c : completion A) : Eff S A :=
  fun s => (c, s).

(** [array.map(f)] and [array.filter(f)] with a callback that has effects:
    the elements are visited in order and the first exception ends the walk. *)
Fixpoint mapM {S A B : Type} (f : A -> Eff S B) (l : list A)
  : Eff S (list B) :=
  match l with
  | [] => ret []
  | x :: l' => y <- f x ;; ys <- mapM f l' ;; ret (y :: ys)
  end.

Fixpoint filterM {S A : Type} (f : A -> Eff S bool) (l : list A)
  : Eff S (list A) :=
  match l with
  | [] => ret []
  | x :: l' =>
      keep <- f x ;; ys <- filterM f l' ;;
      ret (if keep then x :: ys else ys)
  end.

(** [for (let i = 0; i < count; i++) { out.push(body) }] for an integral
    [count]: [Z.to_nat count] rounds. *)
Fixpoint repeatM {S A : Type} (n : nat) (body : Eff S A) : Eff S (list A) :=
  match n with
  | O => ret []
  | Datatypes.S n' => x <- body ;; xs <- repeatM n' body ;; ret (x :: xs)
  end.

(** ** The host *)

Record World : Type := {
  random_calls : nat;
  now_calls : nat
}.

Class Host : Type := {
  random : nat -> Q;
  now : nat -> Z;
  toLowerCase : jsstring -> jsstring;
  toString16 : Q -> jsstring
}.

(** [Math.random()] returns a number in [0, 1). *)
Definition RandomUnit (H : Host) : Prop :=
  forall k, 0 <= random k /\ random k < 1.


Section HostCalls.
Context {H : Host}.

Definition Math_random : Eff World Q :=
  fun w => (Normal (random (random_calls w)),
            {| random_calls := S (random_calls w);
               now_calls := now_calls w |}).

Definition Date_now : Eff World Z :=
  fun w => (Normal (now (now_calls w)),
            {| random_calls := random_calls w;
               now_calls := S (now_calls w) |}).
End HostCalls.

(** A computation on the world, run inside a component. *)
Definition liftW {St A : Type} (m : Eff World A) : Eff (St * World) A :=
  fun s =>
    match m (snd s) with
    | (c, w') => (c, (fst s, w'))
    end.

Definition setState {St : Type} (f : St -> St) : Eff (St * World) unit :=
  modify (fun s => (f (fst s), snd s)).

Definition state {St : Type} : Eff (St * World) St :=
  fun s => (Normal (fst s), s).

(** ** The live-source component (first component of App.tsx) *)

Module LiveVariant.

(** The [Flight] interface; the payload is [any], so at run time a field
    holds whatever the record had at its position. *)
Record Flight : Type := {
  icao24 : jsval;
  callsign : jsval;
  origin_country : jsval;
  time_position : jsval;
  last_contact : jsval;
  longitude : jsval;
  latitude : jsval;
  baro_altitude : jsval;
  on_ground : jsval;
  velocity : jsval;
  true_track : jsval;
  vertical_rate : jsval;
  sensors : jsval;
  geo_altitude : jsval;
  squawk : jsval;
  spi : jsval;
  position_source : jsval
}.

Record State : Type := {
  flights : list Flight;
  filteredFlights : list Flight;
  selectedFlight : option Flight;
  error : option jsstring;
  searchTerm : jsstring;
  loading : bool;
  usingMockData : bool
}.

(** The values given to [useState]. *)
Definition initial : State := {|
  flights := [];
  filteredFlights := [];
  selectedFlight := None;
  error := None;
  searchTerm := [];
  loading := true;
  usingMockData := false
|}.

Definition setFlights (v : list Flight) : Eff (State * World) unit :=
  setState (fun st => {|
    flights := v; filteredFlights := filteredFlights st;
    selectedFlight := selectedFlight st; error := error st;
    searchTerm := searchTerm st; loading := loading st;
    usingMockData := usingMockData st |}).

Definition setFilteredFlights (v : list Flight) : Eff (State * World) unit :=
  setState (fun st => {|
    flights := flights st; filteredFlights := v;
    selectedFlight := selectedFlight st; error := error st;
    searchTerm := searchTerm st; loading := loading st;
    usingMockData := usingMockData st |}).

Definition setSelectedFlight (v : option Flight) : Eff (State * World) unit :=
  setState (fun st => {|
    flights := flights st; filteredFlights := filteredFlights st;
    selectedFlight := v; error := error st;
    searchTerm := searchTerm st; loading := loading st;
    usingMockData := usingMockData st |}).

Definition setError (v : option jsstring) : Eff (State * World) unit :=
  setState (fun st => {|
    flights := flights st; filteredFlights := filteredFlights st;
    selectedFlight := selectedFlight st; error := v;
    searchTerm := searchTerm st; loading := loading st;
    usingMockData := usingMockData st |}).

Definition setSearchTerm (v : jsstring) : Eff (State * World) unit :=
  setState (fun st => {|
    flights := flights st; filteredFlights := filteredFlights st;
    selectedFlight := selectedFlight st; error := error st;
    searchTerm := v; loading := loading st;
    usingMockData := usingMockData st |}).

Definition setLoading (v : bool) : Eff (State * World) unit :=
  setState (fun st => {|
    flights := flights st; filteredFlights := filteredFlights st;
    selectedFlight := selectedFlight st; error := error st;
    searchTerm := searchTerm st; loading := v;
    usingMockData := usingMockData st |}).

Definition setUsingMockData (v : bool) : Eff (State * World) unit :=
  setState (fun st => {|
    flights := flights st; filteredFlights := filteredFlights st;
    selectedFlight := selectedFlight st; error := error st;
    searchTerm := searchTerm st; loading := loading st;
    usingMockData := v |}).

Definition countries : list jsval :=
  List.map (fun s => VStr (str s))
    ["USA"; "UK"; "France"; "Germany"; "Japan"; "Canada"; "Australia";
     "Brazil"; "China"; "India"]%string.

Definition airlines : list jsval :=
  List.map (fun s => VStr (str s))
    ["AAL"; "BAW"; "DLH"; "AFR"; "UAL"; "SIA"; "QFA"; "JAL"; "ANA";
     "KAL"]%string.

(** A value inside a template literal. *)
Definition interpolate (v : jsval) : jsstring :=
  match v with
  | VStr s => s
  | _ => str "undefined"
  end.

(** What the outcome of [axios.get] is: the promise rejects, or it resolves
    with a response whose [data] is the parsed body. *)
Inductive fetch_outcome : Type :=
| Rejected
| Resolved (data : jsval).

(** [v[name]] for a property name that is not an index. *)
Definition get_named (v : jsval) (name : jsstring) : completion jsval :=
  match v with
  | VUndefined | VNull => Throw TypeError
  | VObj props => Normal (lookup_property name props)
  | _ => Normal VUndefined
  end.

(** [v[k]] *)
Definition get_index (v : jsval) (k : nat) : completion jsval :=
  match v with
  | VUndefined | VNull => Throw TypeError
  | VArr l => Normal (nth k l VUndefined)
  | VStr s => Normal (match nth_error s k with
                      | Some c => VStr [c]
                      | None => VUndefined
                      end)
  | VObj props => Normal (lookup_property (decimal (Z.of_nat k)) props)
  | VBool _ | VNum _ => Normal VUndefined
  end.

(** [v?.trim()]: a parsed value other than a string has no callable
    [trim]. *)
Definition optional_trim (v : jsval) : completion jsval :=
  match v with
  | VUndefined | VNull => Normal VUndefined
  | VStr s => Normal (VStr (trim s))
  | _ => Throw TypeError
  end.

Definition or_else (v d : jsval) : jsval := if truthy v then v else d.

(** The callback of [response.data.states.map]. *)
Definition mapState (st : jsval) : completion Flight :=
  (s0 <- get_index st 0 ;;
   s1 <- get_index st 1 ;;
   t1 <- optional_trim s1 ;;
   s2 <- get_index st 2 ;;
   s3 <- get_index st 3 ;;
   s4 <- get_index st 4 ;;
   s5 <- get_index st 5 ;;
   s6 <- get_index st 6 ;;
   s7 <- get_index st 7 ;;
   s8 <- get_index st 8 ;;
   s9 <- get_index st 9 ;;
   s10 <- get_index st 10 ;;
   s11 <- get_index st 11 ;;
   s12 <- get_index st 12 ;;
   s13 <- get_index st 13 ;;
   s14 <- get_index st 14 ;;
   s15 <- get_index st 15 ;;
   s16 <- get_index st 16 ;;
   Normal {| icao24 := s0;
             callsign := or_else t1 (VStr (str "N/A"));
             origin_country := s2;
             time_position := s3;
             last_contact := s4;
             longitude := s5;
             latitude := s6;
             baro_altitude := s7;
             on_ground := s8;
             velocity := s9;
             true_track := s10;
             vertical_rate := s11;
             sensors := s12;
             geo_altitude := s13;
             squawk := s14;
             spi := s15;
             position_source := s16 |})%completion.

Definition fetch_error_message : jsstring :=
  str "Failed to fetch real flight data. Using mock data instead.".

Section WithHost.
Context {H : Host}.

(** One round of the loop of [generateMockFlights]. *)
Definition mockFlight : Eff World Flight :=
  r <- Math_random ;;
  let icao24 := substr (toString16 r) 2 6 in
  r <- Math_random ;;
  let airline :=
    js_index airlines (Math_floor (r * inject_Z (Z.of_nat (List.length airlines)))) in
  r <- Math_random ;;
  let flightNumber := (Math_floor (r * 9000) + 1000)%Z in
  r_country <- Math_random ;;
  t1 <- Date_now ;;
  t2 <- Date_now ;;
  r_lon <- Math_random ;;
  r_lat <- Math_random ;;
  r_baro <- Math_random ;;
  r_ground <- Math_random ;;
  r_vel <- Math_random ;;
  r_track <- Math_random ;;
  r_vert <- Math_random ;;
  r_geo <- Math_random ;;
  r_squawk <- Math_random ;;
  r_src <- Math_random ;;
  ret {| icao24 := VStr icao24;
         callsign := VStr (interpolate airline ++ decimal flightNumber);
         origin_country :=
           js_index countries
             (Math_floor (r_country * inject_Z (Z.of_nat (List.length countries))));
         time_position := VNum (inject_Z (t1 / 1000));
         last_contact := VNum (inject_Z (t2 / 1000));
         longitude := VNum (r_lon * 360 - 180);
         latitude := VNum (r_lat * 180 - 90);
         baro_altitude := VNum (r_baro * 10000 + 1000);
         on_ground := VBool (Qgtb r_ground (9 # 10));
         velocity := VNum (r_vel * 300 + 400);
         true_track := VNum (r_track * 360);
         vertical_rate := VNum ((r_vert - (1 # 2)) * 20);
         sensors := VNull;
         geo_altitude := VNum (r_geo * 10000 + 1000);
         squawk := VStr (decimal (Math_floor (r_squawk * 9000 + 1000)));
         spi := VBool false;
         position_source := VNum (inject_Z (Math_floor (r_src * 3))) |}.

Definition generateMockFlights (count : Z) : Eff World (list Flight) :=
  repeatM (Z.to_nat count) mockFlight.

(** The body of the [try] block of [fetchFlights]. *)
Definition fetchLive (outcome : fetch_outcome) : Eff (State * World) unit :=
  match outcome with
  | Rejected => throw RequestFailed
  | Resolved data =>
      if truthy data then
        states <- lift (get_named data (str "states")) ;;
        match states with
        | VArr l =>
            flightData <- mapM (fun st => lift (mapState st)) l ;;
            setFlights flightData ;;
            setFilteredFlights flightData ;;
            setError None ;;
            setUsingMockData false
        | _ => throw (Error (str "No flight data available"))
        end
      else throw (Error (str "No flight data available"))
  end.

(** The [catch] block. *)
Definition fetchFallback (e : exn) : Eff (State * World) unit :=
  mockFlights <- liftW (generateMockFlights 100) ;;
  setFlights mockFlights ;;
  setFilteredFlights mockFlights ;;
  setError (Some fetch_error_message) ;;
  setUsingMockData true.

Definition fetchFlights (outcome : fetch_outcome) : Eff (State * World) unit :=
  setLoading true ;;
  finally (try_catch (fetchLive outcome) fetchFallback) (setLoading false).

(** [v.toLowerCase()]: only a string has the method. *)
Definition method_toLowerCase {S : Type} (v : jsval) : Eff S jsstring :=
  match v with
  | VStr s => ret (toLowerCase s)
  | _ => throw TypeError
  end.

(** The predicate given to [flights.filter]. *)
Definition flightMatches {S : Type} (searchTermLower : jsstring)
    (flight : Flight) : Eff S bool :=
  id <- method_toLowerCase (icao24 flight) ;;
  if includes id searchTermLower then ret true
  else if truthy (callsign flight) then
    cs <- method_toLowerCase (callsign flight) ;;
    ret (includes cs searchTermLower)
  else ret false.

Definition handleSearch : Eff (State * World) unit :=
  st <- state ;;
  if isEmpty (trim (searchTerm st)) then
    setFilteredFlights (flights st)
  else
    let searchTermLower := toLowerCase (searchTerm st) in
    filtered <- filterM (flightMatches searchTermLower) (flights st) ;;
    setFilteredFlights filtered.

(** A marker is drawn for a filtered flight whose latitude and longitude
    are both truthy; clicking it selects the flight. *)
Definition hasMarker (flight : Flight) : bool :=
  truthy (latitude flight) && truthy (longitude flight).

Definition clickMarker (i : nat) : Eff (State * World) unit :=
  st <- state ;;
  match nth_error (filteredFlights st) i with
  | Some flight =>
      if hasMarker flight then setSelectedFlight (Some flight) else ret tt
  | None => ret tt
  end.

End WithHost.

End LiveVariant.

(** ** The flight/airport component (second component of App.tsx) *)

Module DualMode.

(** [airline_iata] and [status] are read from an array at a computed index,
    so they are kept as run-time values; the other strings are built by
    template literals. *)
Record Flight : Type := {
  flight_icao : jsstring;
  flight_iata : jsstring;
  dep_iata : jsstring;
  arr_iata : jsstring;
  airline_icao : jsstring;
  airline_iata : jsval;
  latitude : Q;
  longitude : Q;
  altitude : Q;
  speed : Q;
  status : jsval;
  direction : Q
}.

Record Airport : Type := {
  airport_name : jsstring;
  iata_code : jsstring;
  icao_code : jsstring;
  airport_latitude : jsstring;
  airport_longitude : jsstring;
  country_name : jsval;
  city_iata_code : jsstring
}.

Inductive SearchType : Type := flight | airport.

Record State : Type := {
  flights : list Flight;
  filteredFlights : list Flight;
  airports : list Airport;
  filteredAirports : list Airport;
  selectedFlight : option Flight;
  selectedAirport : option Airport;
  error : option jsstring;
  searchTerm : jsstring;
  searchType : SearchType;
  loading : bool
}.

(** The values given to [useState]. *)
Definition initial : State := {|
  flights := [];
  filteredFlights := [];
  airports := [];
  filteredAirports := [];
  selectedFlight := None;
  selectedAirport := None;
  error := None;
  searchTerm := [];
  searchType := flight;
  loading := true
|}.

Definition setFlights (v : list Flight) : Eff (State * World) unit :=
  setState (fun st => {|
    flights := v; filteredFlights := filteredFlights st;
    airports := airports st; filteredAirports := filteredAirports st;
    selectedFlight := selectedFlight st;
    selectedAirport := selectedAirport st; error := error st;
    searchTerm := searchTerm st; searchType := searchType st;
    loading := loading st |}).

Definition setFilteredFlights (v : list Flight) : Eff (State * World) unit :=
  setState (fun st => {|
    flights := flights st; filteredFlights := v;
    airports := airports st; filteredAirports := filteredAirports st;
    selectedFlight := selectedFlight st;
    selectedAirport := selectedAirport st; error := error st;
    searchTerm := searchTerm st; searchType := searchType st;
    loading := loading st |}).

Definition setAirports (v : list Airport) : Eff (State * World) unit :=
  setState (fun st => {|
    flights := flights st; filteredFlights := filteredFlights st;
    airports := v; filteredAirports := filteredAirports st;
    selectedFlight := selectedFlight st;
    selectedAirport := selectedAirport st; error := error st;
    searchTerm := searchTerm st; searchType := searchType st;
    loading := loading st |}).

Definition setFilteredAirports (v : list Airport) : Eff (State * World) unit :=
  setState (fun st => {|
    flights := flights st; filteredFlights := filteredFlights st;
    airports := airports st; filteredAirports := v;
    selectedFlight := selectedFlight st;
    selectedAirport := selectedAirport st; error := error st;
    searchTerm := searchTerm st; searchType := searchType st;
    loading := loading st |}).

Definition setSelectedFlight (v : option Flight) : Eff (State * World) unit :=
  setState (fun st => {|
    flights := flights st; filteredFlights := filteredFlights st;
    airports := airports st; filteredAirports := filteredAirports st;
    selectedFlight := v;
    selectedAirport := selectedAirport st; error := error st;
    searchTerm := searchTerm st; searchType := searchType st;
    loading := loading st |}).

Definition setSelectedAirport (v : option Airport)
  : Eff (State * World) unit :=
  setState (fun st => {|
    flights := flights st; filteredFlights := filteredFlights st;
    airports := airports st; filteredAirports := filteredAirports st;
    selectedFlight := selectedFlight st;
    selectedAirport := v; error := error st;
    searchTerm := searchTerm st; searchType := searchType st;
    loading := loading st |}).

Definition setError (v : option jsstring) : Eff (State * World) unit :=
  setState (fun st => {|
    flights := flights st; filteredFlights := filteredFlights st;
    airports := airports st; filteredAirports := filteredAirports st;
    selectedFlight := selectedFlight st;
    selectedAirport := selectedAirport st; error := v;
    searchTerm := searchTerm st; searchType := searchType st;
    loading := loading st |}).

Definition setSearchTerm (v : jsstring) : Eff (State * World) unit :=
  setState (fun st => {|
    flights := flights st; filteredFlights := filteredFlights st;
    airports := airports st; filteredAirports := filteredAirports st;
    selectedFlight := selectedFlight st;
    selectedAirport := selectedAirport st; error := error st;
    searchTerm := v; searchType := searchType st;
    loading := loading st |}).

Definition setSearchType (v : SearchType) : Eff (State * World) unit :=
  setState (fun st => {|
    flights := flights st; filteredFlights := filteredFlights st;
    airports := airports st; filteredAirports := filteredAirports st;
    selectedFlight := selectedFlight st;
    selectedAirport := selectedAirport st; error := error st;
    searchTerm := searchTerm st; searchType := v;
    loading := loading st |}).

Definition setLoading (v : bool) : Eff (State * World) unit :=
  setState (fun st => {|
    flights := flights st; filteredFlights := filteredFlights st;
    airports := airports st; filteredAirports := filteredAirports st;
    selectedFlight := selectedFlight st;
    selectedAirport := selectedAirport st; error := error st;
    searchTerm := searchTerm st; searchType := searchType st;
    loading := v |}).

Definition airlines : list jsval :=
  List.map (fun s => VStr (str s))
    ["AA"; "UA"; "DL"; "LH"; "BA"; "AF"; "KL"; "EK"; "QR"; "SQ"]%string.

Definition statuses : list jsval :=
  List.map (fun s => VStr (str s))
    ["scheduled"; "active"; "landed"; "delayed"; "cancelled"]%string.

Definition countries : list jsval :=
  List.map (fun s => VStr (str s))
    ["USA"; "UK"; "Germany"; "France"; "Japan"; "Australia"; "Canada";
     "Brazil"; "India"; "China"]%string.

Definition interpolate (v : jsval) : jsstring :=
  match v with
  | VStr s => s
  | _ => str "undefined"
  end.

Definition mock_error_message : jsstring :=
  str "Failed to generate mock data. Please try again.".

Section WithHost.
Context {H : Host}.

(** [String.fromCharCode(65 + Math.floor(Math.random() * 26))] *)
Definition randomLetter : Eff World jsstring :=
  r <- Math_random ;;
  ret (fromCharCode (65 + Math_floor (r * 26))).

Definition randomCode : Eff World jsstring :=
  a <- randomLetter ;; b <- randomLetter ;; c <- randomLetter ;;
  ret (a ++ b ++ c).

(** One round of the loop of [generateMockFlights]. *)
Definition mockFlight : Eff World Flight :=
  r <- Math_random ;;
  let airline :=
    js_index airlines
      (Math_floor (r * inject_Z (Z.of_nat (List.length airlines)))) in
  r_icao <- Math_random ;;
  r_iata <- Math_random ;;
  dep <- randomCode ;;
  arr <- randomCode ;;
  r_lat <- Math_random ;;
  r_lon <- Math_random ;;
  r_alt <- Math_random ;;
  r_speed <- Math_random ;;
  r_status <- Math_random ;;
  r_dir <- Math_random ;;
  ret {| flight_icao :=
           interpolate airline ++ decimal (Math_floor (1000 + r_icao * 9000));
         flight_iata :=
           interpolate airline ++ decimal (Math_floor (100 + r_iata * 900));
         dep_iata := dep;
         arr_iata := arr;
         airline_icao := interpolate airline ++ str "A";
         airline_iata := airline;
         latitude := r_lat * 180 - 90;
         longitude := r_lon * 360 - 180;
         altitude := inject_Z (Math_floor (r_alt * 40000) + 5000);
         speed := inject_Z (Math_floor (r_speed * 500) + 300);
         status :=
           js_index statuses
             (Math_floor (r_status * inject_Z (Z.of_nat (List.length statuses))));
         direction := inject_Z (Math_floor (r_dir * 360)) |}.

Definition generateMockFlights (count : Z) : Eff World (list Flight) :=
  repeatM (Z.to_nat count) mockFlight.

(** One round of the loop of [generateMockAirports]. *)
Definition mockAirport : Eff World Airport :=
  iataCode <- randomCode ;;
  r_lat <- Math_random ;;
  r_lon <- Math_random ;;
  r_country <- Math_random ;;
  ret {| airport_name := iataCode ++ str " International Airport";
         iata_code := iataCode;
         icao_code := str "K" ++ iataCode;
         airport_latitude := toFixed (r_lat * 180 - 90) 6;
         airport_longitude := toFixed (r_lon * 360 - 180) 6;
         country_name :=
           js_index countries
             (Math_floor (r_country * inject_Z (Z.of_nat (List.length countries))));
         city_iata_code := slice0 iataCode 2 |}.

Definition generateMockAirports (count : Z) : Eff World (list Airport) :=
  repeatM (Z.to_nat count) mockAirport.

Definition fetchMockData : Eff (State * World) unit :=
  setLoading true ;;
  finally
    (try_catch
       (mockFlights <- liftW (generateMockFlights 100) ;;
        mockAirports <- liftW (generateMockAirports 50) ;;
        setFlights mockFlights ;;
        setFilteredFlights mockFlights ;;
        setAirports mockAirports ;;
        setFilteredAirports [] ;;
        setError None)
       (fun _ =>
          setError (Some mock_error_message) ;;
          setFlights [] ;;
          setFilteredFlights [] ;;
          setAirports [] ;;
          setFilteredAirports []))
    (setLoading false).

(** The callback of [prevFlights.map] in the five-second interval. *)
Definition perturb (f : Flight) : Eff World Flight :=
  r_lat <- Math_random ;;
  r_lon <- Math_random ;;
  r_alt <- Math_random ;;
  r_speed <- Math_random ;;
  r_dir <- Math_random ;;
  ret {| flight_icao := flight_icao f;
         flight_iata := flight_iata f;
         dep_iata := dep_iata f;
         arr_iata := arr_iata f;
         airline_icao := airline_icao f;
         airline_iata := airline_iata f;
         latitude := latitude f + (r_lat - (1 # 2)) * (1 # 10);
         longitude := longitude f + (r_lon - (1 # 2)) * (1 # 10);
         altitude :=
           Math_max 5000
             (Math_min 40000 (altitude f + (r_alt - (1 # 2)) * 1000));
         speed :=
           Math_max 300 (Math_min 800 (speed f + (r_speed - (1 # 2)) * 50));
         status := status f;
         direction :=
           js_rem (direction f + (r_dir - (1 # 2)) * 10 + 360) 360 |}.

(** [setFlights(prevFlights => prevFlights.map(...))] *)
Definition tick : Eff (State * World) unit :=
  st <- state ;;
  next <- liftW (mapM perturb (flights st)) ;;
  setFlights next.

Definition flightMatches (searchTermLower : jsstring) (f : Flight) : bool :=
  includes (toLowerCase (flight_icao f)) searchTermLower
  || includes (toLowerCase (flight_iata f)) searchTermLower.

Definition airportMatches (searchTermLower : jsstring) (a : Airport)
  : bool :=
  includes (toLowerCase (airport_name a)) searchTermLower
  || includes (toLowerCase (iata_code a)) searchTermLower
  || includes (toLowerCase (icao_code a)) searchTermLower.

Definition handleSearch : Eff (State * World) unit :=
  st <- state ;;
  if isEmpty (trim (searchTerm st)) then
    setFilteredFlights (flights st) ;;
    setFilteredAirports []
  else
    let searchTermLower := toLowerCase (searchTerm st) in
    match searchType st with
    | flight =>
        let filtered :=
          List.filter (flightMatches searchTermLower) (flights st) in
        setFilteredFlights filtered ;;
        setFilteredAirports []
    | airport =>
        let filtered :=
          List.filter (airportMatches searchTermLower) (airports st) in
        setFilteredAirports filtered ;;
        setFilteredFlights []
    end.

(** The side panel. *)
Inductive panel : Type :=
| Spinner
| ErrorNotice (message : jsstring)
| NoFlights
| FlightDetail (f : Flight)
| FlightPrompt
| NoAirports
| AirportDetail (a : Airport)
| AirportPrompt.

Definition recordPanel (st : State) : panel :=
  match searchType st with
  | flight =>
      match filteredFlights st, selectedFlight st with
      | [], _ => NoFlights
      | _ :: _, Some f => FlightDetail f
      | _ :: _, None => FlightPrompt
      end
  | airport =>
      match filteredAirports st, selectedAirport st with
      | [], _ => NoAirports
      | _ :: _, Some a => AirportDetail a
      | _ :: _, None => AirportPrompt
      end
  end.

Definition sidePanel (st : State) : panel :=
  if loading st then Spinner
  else
    match error st with
    | Some msg => if isEmpty msg then recordPanel st else ErrorNotice msg
    | None => recordPanel st
    end.

(** What the user and the timer can do. *)
Inductive event : Type :=
| Retry
| Tick
| ChangeSearchTerm (value : jsstring)
| ChangeSearchType (value : SearchType)
| ClickSearch
| ClickFlightMarker (i : nat)
| ClickAirportMarker (i : nat).

(** Flight markers are drawn from [filteredFlights] in flight mode, airport
    markers from [filteredAirports] in airport mode; the retry button
    is drawn when an error is shown.  A flight marker carries the flight with
    its icon added; the icon is computed from [direction] and is no field of
    [Flight], so the selection is recorded as the flight. *)
Definition handler (e : event) (st : State)
  : option (Eff (State * World) unit) :=
  match e with
  | Retry =>
      match sidePanel st with
      | ErrorNotice _ => Some (fetchMockData ;; handleSearch)
      | _ => None
      end
  | Tick => Some (tick ;; handleSearch)
  | ChangeSearchTerm v => Some (setSearchTerm v ;; handleSearch)
  | ChangeSearchType v => Some (setSearchType v ;; handleSearch)
  | ClickSearch => Some handleSearch
  | ClickFlightMarker i =>
      match searchType st, nth_error (filteredFlights st) i with
      | flight, Some f => Some (setSelectedFlight (Some f))
      | _, _ => None
      end
  | ClickAirportMarker i =>
      match searchType st, nth_error (filteredAirports st) i with
      | airport, Some a => Some (setSelectedAirport (Some a))
      | _, _ => None
      end
  end.

Definition step (e : event) (s : State * World) : option (State * World) :=
  match handler e (fst s) with
  | Some h =>
      match h s with
      | (Normal _, s') => Some s'
      | (Throw _, _) => None
      end
  | None => None
  end.

(** The first render and its effects: [fetchMockData], then
    [handleSearch]. *)
Definition mounted : State * World :=
  snd ((fetchMockData ;; handleSearch)
         (initial, {| random_calls := 0; now_calls := 0 |})).

Inductive reachable : State * World -> Prop :=
| reach_mount : reachable mounted
| reach_step e s s' : reachable s -> step e s = Some s' -> reachable s'.

Fixpoint run (es : list event) (s : State * World)
  : option (State * World) :=
  match es with
  | [] => Some s
  | e :: es' =>
      match step e s with
      | Some s' => run es' s'
      | None => None
      end
  end.

End WithHost.

End DualMode.

(** ** A host for the examples *)

(** Lower-casing of the letters A to Z; it agrees with [toLowerCase] on
    strings of code units below 128. *)
Definition asciiLower (c : N) : N :=
  if N.leb 65 c && N.leb c 90 then (c + 32)%N else c.

Definition hexDigit (d : Z) : N :=
  if (d <? 10)%Z then Z.to_N (48 + d) else Z.to_N (87 + d).

Fixpoint hexDigits (fuel : nat) (x : Q) : jsstring :=
  match fuel with
  | O => []
  | S n =>
      if Qeq_bool x 0 then []
      else let d := Qfloor (x * 16) in
           hexDigit d :: hexDigits n (x * 16 - inject_Z d)
  end.

(** Base-16 rendering of a fraction in [0, 1). *)
Definition fractionToString16 (x : Q) : jsstring :=
  if Qeq_bool x 0 then str "0" else str "0." ++ hexDigits 13 x.

Definition sampleHost : Host := {|
  random := fun k => Z.of_nat ((k * 37) mod 100) # 100;
  now := fun k => (1700000000000 + Z.of_nat k)%Z;
  toLowerCase := List.map asciiLower;
  toString16 := fractionToString16
|}.

Definition world0 : World := {| random_calls := 0; now_calls := 0 |}.

(** Two state vectors as OpenSky sends them: the call sign is padded to eight
    characters, and may be null. *)
Definition sampleVector1 : jsval :=
  VArr [VStr (str "3c6444"); VStr (str "DLH123  "); VStr (str "Germany");
        VNum 1700000000; VNum 1700000001; VNum (85 # 10); VNum (501 # 10);
        VNum 10000; VBool false; VNum 230; VNum 90; VNum 0; VNull;
        VNum 10100; VStr (str "1000"); VBool false; VNum 0].

Definition sampleVector2 : jsval :=
  VArr [VStr (str "a0b1c2"); VNull; VStr (str "United States");
        VNum 1700000000; VNum 1700000001; VNum (-74); VNum (407 # 10);
        VNum 11000; VBool false; VNum 250; VNum 270; VNum 0; VNull;
        VNum 11100; VNull; VBool false; VNum 0].

Definition samplePayload : jsval :=
  VObj [(str "time", VNum 1700000001);
        (str "states", VArr [sampleVector1; sampleVector2])].

Definition sampleLiveFlight (id cs : string) : LiveVariant.Flight := {|
  LiveVariant.icao24 := VStr (str id);
  LiveVariant.callsign := VStr (str cs);
  LiveVariant.origin_country := VStr (str "Germany");
  LiveVariant.time_position := VNum 1700000000;
  LiveVariant.last_contact := VNum 1700000001;
  LiveVariant.longitude := VNum (85 # 10);
  LiveVariant.latitude := VNum (501 # 10);
  LiveVariant.baro_altitude := VNum 10000;
  LiveVariant.on_ground := VBool false;
  LiveVariant.velocity := VNum 230;
  LiveVariant.true_track := VNum 90;
  LiveVariant.vertical_rate := VNum 0;
  LiveVariant.sensors := VNull;
  LiveVariant.geo_altitude := VNum 10100;
  LiveVariant.squawk := VNull;
  LiveVariant.spi := VBool false;
  LiveVariant.position_source := VNum 0
|}.

Definition sampleLiveState (q : string) : LiveVariant.State := {|
  LiveVariant.flights :=
    [sampleLiveFlight "abc123" "DL123"; sampleLiveFlight "def456" "AA456"];
  LiveVariant.filteredFlights := [];
  LiveVariant.selectedFlight := Some (sampleLiveFlight "ffffff" "XX000");
  LiveVariant.error := None;
  LiveVariant.searchTerm := str q;
  LiveVariant.loading := false;
  LiveVariant.usingMockData := false
|}.

Definition sampleDualFlight (icao iata : string) (heading : Q)
  : DualMode.Flight := {|
  DualMode.flight_icao := str icao;
  DualMode.flight_iata := str iata;
  DualMode.dep_iata := str "JFK";
  DualMode.arr_iata := str "LHR";
  DualMode.airline_icao := str "DLA";
  DualMode.airline_iata := VStr (str "DL");
  DualMode.latitude := 51 # 1;
  DualMode.longitude := -(3 # 2);
  DualMode.altitude := 39900;
  DualMode.speed := 310;
  DualMode.status := VStr (str "active");
  DualMode.direction := heading
|}.

Definition sampleDualAirport (code : string) : DualMode.Airport := {|
  DualMode.airport_name := str code ++ str " International Airport";
  DualMode.iata_code := str code;
  DualMode.icao_code := str "K" ++ str code;
  DualMode.airport_latitude := str "40.641300";
  DualMode.airport_longitude := str "-73.778100";
  DualMode.country_name := VStr (str "USA");
  DualMode.city_iata_code := slice0 (str code) 2
|}.

Definition sampleDualState (q : string) (ty : DualMode.SearchType)
  : DualMode.State := {|
  DualMode.flights :=
    [sampleDualFlight "DL1234" "DL123" 358; sampleDualFlight "AA4567" "AA456" 2];
  DualMode.filteredFlights := [];
  DualMode.airports := [sampleDualAirport "JFK"; sampleDualAirport "LHR"];
  DualMode.filteredAirports := [];
  DualMode.selectedFlight := None;
  DualMode.selectedAirport := None;
  DualMode.error := None;
  DualMode.searchTerm := str q;
  DualMode.searchType := ty;
  DualMode.loading := false
|}.

(** * Vocabulary of the specification *)

(** "Exactly the elements of [l] that satisfy [P], in the order of [l]". *)
Inductive selects {A : Type} (P : A -> Prop) : list A -> list A -> Prop :=
| selects_nil : selects P [] []
| selects_keep x l out :
    P x -> selects P l out -> selects P (x :: l) (x :: out)
| selects_skip x l out :
    ~ P x -> selects P l out -> selects P (x :: l) out.

Section FilterVocabulary.
Context {H : Host}.





(** What [handleSearch] leaves alone. *)
Definition sameButSubsets (st st' : DualMode.State) : Prop :=
  DualMode.flights st' = DualMode.flights st
  /\ DualMode.airports st' = DualMode.airports st
  /\ DualMode.selectedFlight st' = DualMode.selectedFlight st
  /\ DualMode.selectedAirport st' = DualMode.selectedAirport st
  /\ DualMode.error st' = DualMode.error st
  /\ DualMode.searchTerm st' = DualMode.searchTerm st
  /\ DualMode.searchType st' = DualMode.searchType st
  /\ DualMode.loading st' = DualMode.loading st.



End FilterVocabulary.

(** The empty-query law read mode by mode: the list of the current mode
    comes back whole and the subset of the other type is emptied. *)
Definition blankQueryReturnsActiveList {H : Host} : Prop :=
  forall st w st' w',
    DualMode.handleSearch (st, w) = (Normal tt, (st', w')) ->
    trim (DualMode.searchTerm st) = [] ->
    match DualMode.searchType st with
    | DualMode.flight =>
        DualMode.filteredFlights st' = DualMode.flights st
        /\ DualMode.filteredAirports st' = []
    | DualMode.airport =>
        DualMode.filteredAirports st' = DualMode.airports st
        /\ DualMode.filteredFlights st' = []
    end.

(** The state after the page has loaded and the user has chosen
    "Search by Airport", the search box still empty. *)
Definition airportModeNoQuery : DualMode.State * World :=
  match DualMode.run (H := sampleHost)
          [DualMode.ChangeSearchType DualMode.airport]
          (DualMode.mounted (H := sampleHost)) with
  | Some s => s
  | None => DualMode.mounted (H := sampleHost)
  end.


(** ** Vocabulary for the generator and the perturbation *)

(** The range of the formulas [rand*180-90] and [rand*360-180]. *)
Definition inFormulaRange (lat lon : Q) : Prop :=
  (-90 <= lat /\ lat < 90) /\ (-180 <= lon /\ lon < 180).

Definition livePositionInRange (f : LiveVariant.Flight) : Prop :=
  exists lat lon,
    LiveVariant.latitude f = VNum lat /\ LiveVariant.longitude f = VNum lon
    /\ inFormulaRange lat lon.

Definition dualPositionInRange (f : DualMode.Flight) : Prop :=
  inFormulaRange (DualMode.latitude f) (DualMode.longitude f).

Definition headingInRange (f : DualMode.Flight) : Prop :=
  0 <= DualMode.direction f /\ DualMode.direction f < 360.

(** The fields a perturbation tick must leave alone. *)
Definition sameButMotion (f f' : DualMode.Flight) : Prop :=
  DualMode.flight_icao f' = DualMode.flight_icao f
  /\ DualMode.flight_iata f' = DualMode.flight_iata f
  /\ DualMode.dep_iata f' = DualMode.dep_iata f
  /\ DualMode.arr_iata f' = DualMode.arr_iata f
  /\ DualMode.airline_icao f' = DualMode.airline_icao f
  /\ DualMode.airline_iata f' = DualMode.airline_iata f
  /\ DualMode.status f' = DualMode.status f.

(** [lo <= x <= hi] *)
Definition between (lo x hi : Q) : Prop := lo <= x /\ x <= hi.

(** The bounds of one perturbation tick on one record. *)
Definition perturbedWithinBounds (f f' : DualMode.Flight) : Prop :=
  between (-(1 # 20)) (DualMode.latitude f' - DualMode.latitude f) (1 # 20)
  /\ between (-(1 # 20)) (DualMode.longitude f' - DualMode.longitude f) (1 # 20)
  /\ (exists raw,
        between (-(500)) (raw - DualMode.altitude f) 500
        /\ DualMode.altitude f' = Math_max 5000 (Math_min 40000 raw))
  /\ between 5000 (DualMode.altitude f') 40000
  /\ (exists raw,
        between (-(25)) (raw - DualMode.speed f) 25
        /\ DualMode.speed f' = Math_max 300 (Math_min 800 raw))
  /\ between 300 (DualMode.speed f') 800
  /\ (exists delta (turns : Z),
        between (-(5)) delta 5
        /\ DualMode.direction f'
           == DualMode.direction f + delta - 360 * inject_Z turns)
  /\ headingInRange f'.

(** What a handler that only touches the flight list leaves alone. *)
Definition sameButFlights (st st' : DualMode.State) : Prop :=
  DualMode.filteredFlights st' = DualMode.filteredFlights st
  /\ DualMode.airports st' = DualMode.airports st
  /\ DualMode.filteredAirports st' = DualMode.filteredAirports st
  /\ DualMode.selectedFlight st' = DualMode.selectedFlight st
  /\ DualMode.selectedAirport st' = DualMode.selectedAirport st
  /\ DualMode.error st' = DualMode.error st
  /\ DualMode.searchTerm st' = DualMode.searchTerm st
  /\ DualMode.searchType st' = DualMode.searchType st
  /\ DualMode.loading st' = DualMode.loading st.

(** "It is not the case that both a flight and an airport are selected",
    in every state the flight/airport component can reach. *)
Definition neverBothSelected {H : Host} : Prop :=
  forall s, DualMode.reachable s ->
    ~ (DualMode.selectedFlight (fst s) <> None
       /\ DualMode.selectedAirport (fst s) <> None).

(** The user clicks the first plane, chooses "Search by Airport", types
    "a" and clicks the first airport. *)
Definition clickPlaneThenAirport : list DualMode.event :=
  [DualMode.ClickFlightMarker 0;
   DualMode.ChangeSearchType DualMode.airport;
   DualMode.ChangeSearchTerm (str "a");
   DualMode.ClickAirportMarker 0].

Definition afterBothClicks : DualMode.State * World :=
  match DualMode.run (H := sampleHost) clickPlaneThenAirport
          (DualMode.mounted (H := sampleHost)) with
  | Some s => s
  | None => DualMode.mounted (H := sampleHost)
  end.

(** A state of the flight/airport component in which a flight and an airport
    are already selected. *)
Definition sampleSelecting (ty : DualMode.SearchType) : DualMode.State := {|
  DualMode.flights :=
    [sampleDualFlight "DL1234" "DL123" 358; sampleDualFlight "AA4567" "AA456" 2];
  DualMode.filteredFlights :=
    match ty with
    | DualMode.flight =>
        [sampleDualFlight "DL1234" "DL123" 358;
         sampleDualFlight "AA4567" "AA456" 2]
    | DualMode.airport => []
    end;
  DualMode.airports := [sampleDualAirport "JFK"; sampleDualAirport "LHR"];
  DualMode.filteredAirports :=
    match ty with
    | DualMode.flight => []
    | DualMode.airport => [sampleDualAirport "JFK"; sampleDualAirport "LHR"]
    end;
  DualMode.selectedFlight := Some (sampleDualFlight "DL1234" "DL123" 358);
  DualMode.selectedAirport := Some (sampleDualAirport "JFK");
  DualMode.error := None;
  DualMode.searchTerm :=
    match ty with DualMode.flight => [] | DualMode.airport => str "k" end;
  DualMode.searchType := ty;
  DualMode.loading := false
|}.

(** ** Vocabulary for the refresh *)

(** [l.map(f)] for a callback without effects on the state. *)
Fixpoint traverse {A B : Type} (f : A -> completion B) (l : list A)
  : completion (list B) :=
  match l with
  | [] => Normal []
  | x :: l' =>
      andThen (f x) (fun y =>
      andThen (traverse f l') (fun ys => Normal (y :: ys)))
  end.

(** What the [try] block of [fetchFlights] has computed when it starts to
    write the state. *)
Definition liveRecords (outcome : LiveVariant.fetch_outcome)
  : completion (list LiveVariant.Flight) :=
  match outcome with
  | LiveVariant.Rejected => Throw RequestFailed
  | LiveVariant.Resolved data =>
      if truthy data then
        andThen (LiveVariant.get_named data (str "states")) (fun states =>
        match states with
        | VArr l => traverse LiveVariant.mapState l
        | _ => Throw (Error (str "No flight data available"))
        end)
      else Throw (Error (str "No flight data available"))
  end.

(** The ways the live fetch fails: the request fails, the payload is missing
    or has no array of states, or a record cannot be mapped. *)
Inductive liveFailure : LiveVariant.fetch_outcome -> Prop :=
| network_error : liveFailure LiveVariant.Rejected
| missing_payload data :
    truthy data = false -> liveFailure (LiveVariant.Resolved data)
| states_not_array data states :
    truthy data = true ->
    LiveVariant.get_named data (str "states") = Normal states ->
    isArray states = false ->
    liveFailure (LiveVariant.Resolved data)
| mapping_exception data l x e :
    truthy data = true ->
    LiveVariant.get_named data (str "states") = Normal (VArr l) ->
    In x l -> LiveVariant.mapState x = Throw e ->
    liveFailure (LiveVariant.Resolved data).

(** The snapshot a refresh leaves: provenance, records and error. *)
Definition synthetic (st : LiveVariant.State) : Prop :=
  LiveVariant.usingMockData st = true
  /\ List.length (LiveVariant.flights st) = 100%nat
  /\ LiveVariant.filteredFlights st = LiveVariant.flights st
  /\ exists msg, LiveVariant.error st = Some msg /\ msg <> [].

Definition live (records : list LiveVariant.Flight) (st : LiveVariant.State)
  : Prop :=
  LiveVariant.usingMockData st = false
  /\ LiveVariant.error st = None
  /\ LiveVariant.flights st = records
  /\ LiveVariant.filteredFlights st = records.

(** A state vector of the payload: seventeen elements, the call sign a
    string or null. *)
Definition stateVector (r : list jsval) : Prop :=
  List.length r = 17%nat
  /\ ((exists s, nth 1 r VUndefined = VStr s) \/ nth 1 r VUndefined = VNull).

(** The record whose every field is the element at the position of the
    field. *)
Definition positional (r : list jsval) (cs : jsval) : LiveVariant.Flight := {|
  LiveVariant.icao24 := nth 0 r VUndefined;
  LiveVariant.callsign := cs;
  LiveVariant.origin_country := nth 2 r VUndefined;
  LiveVariant.time_position := nth 3 r VUndefined;
  LiveVariant.last_contact := nth 4 r VUndefined;
  LiveVariant.longitude := nth 5 r VUndefined;
  LiveVariant.latitude := nth 6 r VUndefined;
  LiveVariant.baro_altitude := nth 7 r VUndefined;
  LiveVariant.on_ground := nth 8 r VUndefined;
  LiveVariant.velocity := nth 9 r VUndefined;
  LiveVariant.true_track := nth 10 r VUndefined;
  LiveVariant.vertical_rate := nth 11 r VUndefined;
  LiveVariant.sensors := nth 12 r VUndefined;
  LiveVariant.geo_altitude := nth 13 r VUndefined;
  LiveVariant.squawk := nth 14 r VUndefined;
  LiveVariant.spi := nth 15 r VUndefined;
  LiveVariant.position_source := nth 16 r VUndefined
|}.

(** The call sign with the surrounding white space removed, "N/A" when it is
    null or nothing is left. *)
Definition displayCallsign (v : jsval) : jsval :=
  match v with
  | VStr s => if isEmpty (trim s) then VStr (str "N/A") else VStr (trim s)
  | _ => VStr (str "N/A")
  end.

(** "A well-formed payload of two state vectors gives a live snapshot of two
    records, every field the element at its position." *)
Definition liveSnapshotPositional {H : Host} : Prop :=
  forall data r1 r2 st w,
    truthy data = true ->
    LiveVariant.get_named data (str "states")
    = Normal (VArr [VArr r1; VArr r2]) ->
    stateVector r1 -> stateVector r2 ->
    exists st' w',
      LiveVariant.fetchFlights (LiveVariant.Resolved data) (st, w)
      = (Normal tt, (st', w'))
      /\ live [positional r1 (nth 1 r1 VUndefined);
               positional r2 (nth 1 r2 VUndefined)] st'.

Definition elementsOf (v : jsval) : list jsval :=
  match v with VArr l => l | _ => [] end.

(** ** Vocabulary for the handlers of the flight/airport component *)

(** The two subsets as [handleSearch] computes them from the query, the mode
    and the two lists. *)
Definition derivedFlights {H : Host} (st : DualMode.State)
  : list DualMode.Flight :=
  if isEmpty (trim (DualMode.searchTerm st)) then DualMode.flights st
  else match DualMode.searchType st with
       | DualMode.flight =>
           List.filter
             (DualMode.flightMatches (toLowerCase (DualMode.searchTerm st)))
             (DualMode.flights st)
       | DualMode.airport => []
       end.

Definition derivedAirports {H : Host} (st : DualMode.State)
  : list DualMode.Airport :=
  if isEmpty (trim (DualMode.searchTerm st)) then []
  else match DualMode.searchType st with
       | DualMode.flight => []
       | DualMode.airport =>
           List.filter
             (DualMode.airportMatches (toLowerCase (DualMode.searchTerm st)))
             (DualMode.airports st)
       end.

(** The subsets on display are the ones of the current query, mode and
    lists. *)
Definition settled {H : Host} (st : DualMode.State) : Prop :=
  DualMode.filteredFlights st = derivedFlights st
  /\ DualMode.filteredAirports st = derivedAirports st.

Definition sameData (st st' : DualMode.State) : Prop :=
  DualMode.flights st' = DualMode.flights st
  /\ DualMode.airports st' = DualMode.airports st.

Definition sameSubsets (st st' : DualMode.State) : Prop :=
  DualMode.filteredFlights st' = DualMode.filteredFlights st
  /\ DualMode.filteredAirports st' = DualMode.filteredAirports st.

Definition sameSelection (st st' : DualMode.State) : Prop :=
  DualMode.selectedFlight st' = DualMode.selectedFlight st
  /\ DualMode.selectedAirport st' = DualMode.selectedAirport st.

Definition sameStatus (st st' : DualMode.State) : Prop :=
  DualMode.error st' = DualMode.error st
  /\ DualMode.loading st' = DualMode.loading st.

Definition sameQuery (st st' : DualMode.State) : Prop :=
  DualMode.searchTerm st' = DualMode.searchTerm st
  /\ DualMode.searchType st' = DualMode.searchType st.

(** What one event does to the state, handler by handler. *)
Definition stepEffect {H : Host} (e : DualMode.event)
    (st st' : DualMode.State) : Prop :=
  match e with
  | DualMode.Retry =>
      (exists msg, DualMode.sidePanel st = DualMode.ErrorNotice msg)
      /\ List.length (DualMode.flights st') = 100%nat
      /\ List.length (DualMode.airports st') = 50%nat
      /\ DualMode.error st' = None /\ DualMode.loading st' = false
      /\ sameSelection st st' /\ sameQuery st st' /\ settled st'
  | DualMode.Tick =>
      Forall2 sameButMotion (DualMode.flights st) (DualMode.flights st')
      /\ DualMode.airports st' = DualMode.airports st
      /\ sameSelection st st' /\ sameStatus st st' /\ sameQuery st st'
      /\ settled st'
  | DualMode.ChangeSearchTerm v =>
      DualMode.searchTerm st' = v
      /\ DualMode.searchType st' = DualMode.searchType st
      /\ sameData st st' /\ sameSelection st st' /\ sameStatus st st'
      /\ settled st'
  | DualMode.ChangeSearchType v =>
      DualMode.searchType st' = v
      /\ DualMode.searchTerm st' = DualMode.searchTerm st
      /\ sameData st st' /\ sameSelection st st' /\ sameStatus st st'
      /\ settled st'
  | DualMode.ClickSearch =>
      sameQuery st st'
      /\ sameData st st' /\ sameSelection st st' /\ sameStatus st st'
      /\ settled st'
  | DualMode.ClickFlightMarker i =>
      DualMode.searchType st = DualMode.flight
      /\ (exists f, nth_error (DualMode.filteredFlights st) i = Some f
                    /\ DualMode.selectedFlight st' = Some f)
      /\ DualMode.selectedAirport st' = DualMode.selectedAirport st
      /\ sameQuery st st' /\ sameData st st' /\ sameSubsets st st'
      /\ sameStatus st st'
  | DualMode.ClickAirportMarker i =>
      DualMode.searchType st = DualMode.airport
      /\ (exists a, nth_error (DualMode.filteredAirports st) i = Some a
                    /\ DualMode.selectedAirport st' = Some a)
      /\ DualMode.selectedFlight st' = DualMode.selectedFlight st
      /\ sameQuery st st' /\ sameData st st' /\ sameSubsets st st'
      /\ sameStatus st st'
  end.

(** The shape every state of the running flight/airport component has. *)
Definition loadedShape (st : DualMode.State) : Prop :=
  DualMode.loading st = false
  /\ DualMode.error st = None
  /\ List.length (DualMode.flights st) = 100%nat
  /\ List.length (DualMode.airports st) = 50%nat.

Definition isClick (e : DualMode.event) : bool :=
  match e with
  | DualMode.ClickFlightMarker _ | DualMode.ClickAirportMarker _ => true
  | _ => false
  end.

(** The two-letter airline codes of the flight/airport generator. *)
Definition airlineCodes : list jsstring :=
  List.map str ["AA"; "UA"; "DL"; "LH"; "BA"; "AF"; "KL"; "EK"; "QR"; "SQ"]%string.

(** Three capital letters A to Z. *)
Definition threeCapitals (s : jsstring) : Prop :=
  List.length s = 3%nat /\ Forall (fun c => (65 <= c <= 90)%N) s.

(** How the generator writes a flight: an airline code followed by a
    four-digit, respectively three-digit, number, and so on. *)
Definition mockFlightFormat (f : DualMode.Flight) : Prop :=
  exists a n m,
    In a airlineCodes
    /\ (1000 <= n <= 9999)%Z /\ (100 <= m <= 999)%Z
    /\ DualMode.flight_icao f = a ++ decimal n
    /\ DualMode.flight_iata f = a ++ decimal m
    /\ DualMode.airline_icao f = a ++ str "A"
    /\ DualMode.airline_iata f = VStr a
    /\ threeCapitals (DualMode.dep_iata f)
    /\ threeCapitals (DualMode.arr_iata f)
    /\ In (DualMode.status f) DualMode.statuses.

(** The ranges the altitude, the speed and the heading of a flight stay
    in. *)
Definition motionInRange (f : DualMode.Flight) : Prop :=
  (5000 <= DualMode.altitude f /\ DualMode.altitude f < 45000)
  /\ between 300 (DualMode.speed f) 800
  /\ headingInRange f.

(** How the generator writes an airport. *)
Definition mockAirportFormat (a : DualMode.Airport) : Prop :=
  threeCapitals (DualMode.iata_code a)
  /\ DualMode.airport_name a
     = DualMode.iata_code a ++ str " International Airport"
  /\ DualMode.icao_code a = str "K" ++ DualMode.iata_code a
  /\ DualMode.city_iata_code a = firstn 2 (DualMode.iata_code a)
  /\ In (DualMode.country_name a) DualMode.countries.

(** ** Vocabulary for the live payload *)

(** A state of the payload that [mapState] can map: it is neither null nor
    undefined (it may be an array, but also a string, a number, an object)
    and what it holds at position 1 is a string, null or undefined. *)
Definition mappable (v : jsval) : Prop :=
  exists x,
    LiveVariant.get_index v 1 = Normal x
    /\ (x = VUndefined \/ x = VNull \/ exists s, x = VStr s).

(** The flight [mapState] makes of a state that has [x] at position 1. *)
Definition mappedFrom (v : jsval) (f : LiveVariant.Flight) : Prop :=
  LiveVariant.mapState v = Normal f
  /\ LiveVariant.get_index v 0 = Normal (LiveVariant.icao24 f).

Definition nonBlankCallsign (f : LiveVariant.Flight) : Prop :=
  exists s, LiveVariant.callsign f = VStr s /\ s <> [].

Definition noStringIdentity (f : LiveVariant.Flight) : Prop :=
  forall s, LiveVariant.icao24 f <> VStr s.

(** The string does not start with white space. *)
Definition noLeadingSpace (s : jsstring) : Prop :=
  match s with
  | [] => True
  | c :: _ => isWhiteSpace c = false
  end.


(** The live-source state after a payload of two states, the second with a
    null identity, while the search box holds "dlh". *)
Definition sampleLiveNoIdentity : LiveVariant.State := {|
  LiveVariant.flights :=
    [positional (elementsOf sampleVector1) (VStr (str "DLH123"));
     positional [VNull] (VStr (str "N/A"))];
  LiveVariant.filteredFlights :=
    [positional (elementsOf sampleVector1) (VStr (str "DLH123"));
     positional [VNull] (VStr (str "N/A"))];
  LiveVariant.selectedFlight := None;
  LiveVariant.error := None;
  LiveVariant.searchTerm := str "dlh";
  LiveVariant.loading := false;
  LiveVariant.usingMockData := false
|}.

(** Lower-casing twice is lower-casing once, and lower-casing does not turn
    a blank string into one that is not blank, nor the converse. *)
Definition LowerIdempotent (H : Host) : Prop :=
  forall s, toLowerCase (toLowerCase s) = toLowerCase s.

Definition LowerKeepsBlank (H : Host) : Prop :=
  forall s, isEmpty (trim (toLowerCase s)) = isEmpty (trim s).

(** * Properties *)

Unset Implicit Arguments.

(** ** Strings *)




Lemma isEmpty_false (s : jsstring) : isEmpty s = false <-> s <> [].
Proof. destruct s; simpl; split; congruence. Qed.




Lemma sampleHost_random : RandomUnit sampleHost.
Proof.
  intros k. unfold random, sampleHost.
  pose proof (Nat.mod_upper_bound (k * 37) 100 ltac:(discriminate)) as Hb.
  set (m := (k * 37) mod 100) in *.
  unfold Qle, Qlt; cbn [Qnum Qden]. lia.
Qed.

(** ** Sequences of effects *)

(** A round that always completes normally with a value satisfying [P],
    repeated [n] times, yields [n] such values. *)
Lemma repeatM_Forall {S A : Type} (P : A -> Prop) (body : Eff S A) :
  (forall s, exists a s', body s = (Normal a, s') /\ P a) ->
  forall n s, exists l s',
    repeatM n body s = (Normal l, s') /\ List.length l = n /\ Forall P l.
Proof.
  intros Hbody n; induction n as [|n IH]; intros s; simpl.
  - exists [], s. repeat split; constructor.
  - destruct (Hbody s) as (a & s1 & Ea & Pa).
    destruct (IH s1) as (l & s2 & El & Len & Fl).
    exists (a :: l), s2. unfold bind. rewrite Ea, El. simpl.
    repeat split; [now rewrite Len | now constructor].
Qed.

Lemma repeatM_total {S A : Type} (body : Eff S A) :
  (forall s, exists a s', body s = (Normal a, s')) ->
  forall n s, exists l s',
    repeatM n body s = (Normal l, s') /\ List.length l = n.
Proof.
  intros Hbody n s.
  destruct (repeatM_Forall (fun _ => True) body) with (n := n) (s := s)
    as (l & s' & E & Len & _).
  - intros s0. destruct (Hbody s0) as (a & s1 & E). now exists a, s1.
  - now exists l, s'.
Qed.

(** A callback that completes normally on every element satisfying [Inv],
    relating the element to its image by [R]. *)
Lemma mapM_Forall2 {S A B : Type} (Inv : A -> Prop) (R : A -> B -> Prop)
    (f : A -> Eff S B) :
  (forall x s, Inv x -> exists y s', f x s = (Normal y, s') /\ R x y) ->
  forall l s, Forall Inv l ->
    exists l' s', mapM f l s = (Normal l', s') /\ Forall2 R l l'.
Proof.
  intros Hf l; induction l as [|x l IH]; intros s Hl; simpl.
  - exists [], s. split; [reflexivity | constructor].
  - inversion Hl as [|? ? Hx Hl']; subst.
    destruct (Hf x s Hx) as (y & s1 & Ey & Rxy).
    destruct (IH s1 Hl') as (l' & s2 & El & F2).
    exists (y :: l'), s2. unfold bind. rewrite Ey, El. simpl.
    split; [reflexivity | now constructor].
Qed.

Lemma Forall2_nth_error {A B : Type} (R : A -> B -> Prop) (l : list A)
    (l' : list B) :
  Forall2 R l l' ->
  forall i x, nth_error l i = Some x ->
    exists y, nth_error l' i = Some y /\ R x y.
Proof.
  induction 1 as [|x y l l' Rxy F IH]; intros i a Hi.
  - destruct i; discriminate.
  - destruct i as [|i]; simpl in *.
    + injection Hi as <-. now exists y.
    + now apply IH.
Qed.

(** ** Filtering *)


Lemma selects_In {A : Type} (P : A -> Prop) (l out : list A) :
  selects P l out -> forall x, In x out <-> In x l /\ P x.
Proof.
  induction 1 as [|x l out Px Hs IH|x l out NPx Hs IH]; intros y; simpl.
  - tauto.
  - rewrite IH. split.
    + intros [<- | [Hy Py]]; auto.
    + intros [[<- | Hy] Py]; auto.
  - rewrite IH. split.
    + intros [Hy Py]; auto.
    + intros [[<- | Hy] Py]; [contradiction | auto].
Qed.

Section Filtering.
Context {H : Host}.



(** [handleSearch] completes normally, draws no random number and writes
    the two subsets only: the blank query gives all flights and no airport,
    another query the matches of the current mode and nothing of the other
    type. *)
Lemma dual_handleSearch_run (st : DualMode.State) (w : World) :
  exists st',
    DualMode.handleSearch (st, w) = (Normal tt, (st', w))
    /\ sameButSubsets st st'
    /\ DualMode.filteredFlights st' =
         (if isEmpty (trim (DualMode.searchTerm st)) then DualMode.flights st
          else match DualMode.searchType st with
               | DualMode.flight =>
                   List.filter
                     (DualMode.flightMatches
                        (toLowerCase (DualMode.searchTerm st)))
                     (DualMode.flights st)
               | DualMode.airport => []
               end)
    /\ DualMode.filteredAirports st' =
         (if isEmpty (trim (DualMode.searchTerm st)) then []
          else match DualMode.searchType st with
               | DualMode.flight => []
               | DualMode.airport =>
                   List.filter
                     (DualMode.airportMatches
                        (toLowerCase (DualMode.searchTerm st)))
                     (DualMode.airports st)
               end).
Proof.
  unfold DualMode.handleSearch, bind, state, sameButSubsets. cbn.
  destruct (isEmpty (trim (DualMode.searchTerm st))).
  - eexists. split; [reflexivity |]. cbn. repeat split.
  - destruct (DualMode.searchType st) eqn:Ety;
      (eexists; split; [reflexivity |]; cbn; repeat split; assumption).
Qed.

End Filtering.

Section LiveFiltering.
Context {H : Host}.




Lemma live_handleSearch_blank (st : LiveVariant.State) (w : World) :
  trim (LiveVariant.searchTerm st) = [] ->
  exists st',
    LiveVariant.handleSearch (st, w) = (Normal tt, (st', w))
    /\ LiveVariant.filteredFlights st' = LiveVariant.flights st
    /\ LiveVariant.flights st' = LiveVariant.flights st
    /\ LiveVariant.selectedFlight st' = LiveVariant.selectedFlight st.
Proof.
  intros Hb. unfold LiveVariant.handleSearch, bind, state. cbn.
  rewrite Hb. cbn. eexists. split; [reflexivity |]. cbn. repeat split.
Qed.


End LiveFiltering.

(** ** The empty query *)

(** C1, as the code has it: when the trimmed query is empty, [handleSearch]
    of the live-source component returns the whole flight list, in order;
    [handleSearch] of the flight/airport component returns the whole flight
    list as the flight subset and empties the airport subset, whatever the
    mode (in airport mode the airports are not listed). *)
Theorem blank_query_returns_all_flights {H : Host} (q : jsstring) :
  trim q = [] ->
  (forall st w, LiveVariant.searchTerm st = q ->
     exists st',
       LiveVariant.handleSearch (st, w) = (Normal tt, (st', w))
       /\ LiveVariant.filteredFlights st' = LiveVariant.flights st)
  /\ (forall st w, DualMode.searchTerm st = q ->
        exists st',
          DualMode.handleSearch (st, w) = (Normal tt, (st', w))
          /\ DualMode.filteredFlights st' = DualMode.flights st
          /\ DualMode.filteredAirports st' = []).
Proof.
  intros Hq. split.
  - intros st w <-.
    destruct (live_handleSearch_blank st w Hq) as (st' & E & Ef & _).
    now exists st'.
  - intros st w <-.
    destruct (dual_handleSearch_run st w) as (st' & E & _ & Ef & Ea).
    rewrite Hq in Ef, Ea. now exists st'.
Qed.

Lemma blank_query_returns_all_flights_witness :
  trim (str "  ") = []
  /\ (exists st',
        LiveVariant.handleSearch (H := sampleHost) (sampleLiveState "  ", world0)
        = (Normal tt, (st', world0))
        /\ LiveVariant.filteredFlights st'
           = LiveVariant.flights (sampleLiveState "  "))
  /\ (exists st',
        DualMode.handleSearch (H := sampleHost)
          (sampleDualState "  " DualMode.airport, world0)
        = (Normal tt, (st', world0))
        /\ DualMode.filteredFlights st'
           = DualMode.flights (sampleDualState "  " DualMode.airport)
        /\ DualMode.filteredAirports st' = []).
Proof.
  split; [reflexivity |].
  destruct (blank_query_returns_all_flights (H := sampleHost) (str "  ")
              eq_refl) as [HL HD].
  split.
  - exact (HL (sampleLiveState "  ") world0 eq_refl).
  - exact (HD (sampleDualState "  " DualMode.airport) world0 eq_refl).
Defined.

(** In airport mode the empty query does not return the airport list: with
    the airports JFK and LHR and an empty search box, no airport is listed and
    the two flights stay listed. *)
Lemma blank_query_airport_mode_counterexample :
  (exists st',
     DualMode.handleSearch (H := sampleHost)
       (sampleDualState "" DualMode.airport, world0)
     = (Normal tt, (st', world0))
     /\ DualMode.airports (sampleDualState "" DualMode.airport)
        = [sampleDualAirport "JFK"; sampleDualAirport "LHR"]
     /\ DualMode.filteredAirports st' = []
     /\ DualMode.filteredFlights st'
        = DualMode.flights (sampleDualState "" DualMode.airport))
  /\ ~ blankQueryReturnsActiveList (H := sampleHost).
Proof.
  destruct (dual_handleSearch_run (H := sampleHost)
              (sampleDualState "" DualMode.airport) world0)
    as (st' & E & _ & Ef & Ea).
  cbn in Ef, Ea. split.
  - exists st'. now repeat split.
  - intros Hc. specialize (Hc _ _ _ _ E eq_refl). cbn in Hc.
    destruct Hc as [Ha _]. rewrite Ea in Ha. discriminate.
Qed.

(** The same happens in the running component: once the page has loaded and
    the user has chosen "Search by Airport", fifty airports exist, none is
    listed, and the hundred flights are. *)
Example blank_query_airport_mode_reachable :
  DualMode.reachable (H := sampleHost) airportModeNoQuery
  /\ trim (DualMode.searchTerm (fst airportModeNoQuery)) = []
  /\ DualMode.searchType (fst airportModeNoQuery) = DualMode.airport
  /\ List.length (DualMode.airports (fst airportModeNoQuery)) = 50%nat
  /\ List.length (DualMode.filteredAirports (fst airportModeNoQuery)) = 0%nat
  /\ List.length (DualMode.filteredFlights (fst airportModeNoQuery)) = 100%nat.
Proof.
  split.
  - apply DualMode.reach_step with
      (e := DualMode.ChangeSearchType DualMode.airport)
      (s := DualMode.mounted (H := sampleHost));
      [apply DualMode.reach_mount | vm_compute; reflexivity].
  - vm_compute. repeat split.
Qed.

(** ** Matching *)




(** The query "DL" against the call signs DL123 and AA456 keeps the first
    flight only, in both components. *)
Example search_DL_keeps_DL123 :
  List.map LiveVariant.callsign
    (LiveVariant.filteredFlights
       (fst (snd (LiveVariant.handleSearch (H := sampleHost)
                    (sampleLiveState "DL", world0)))))
  = [VStr (str "DL123")]
  /\ List.map DualMode.flight_iata
       (DualMode.filteredFlights
          (fst (snd (DualMode.handleSearch (H := sampleHost)
                       (sampleDualState "DL" DualMode.flight, world0)))))
     = [str "DL123"].
Proof. vm_compute. split; reflexivity. Qed.

(** C10: after [handleSearch] of the flight/airport component, whatever the
    query, the mode and the lists, one of the two subsets is empty; when the
    trimmed query is empty the flight subset is the whole flight list and the
    airport subset is empty, also in airport mode. *)
Theorem handleSearch_leaves_one_subset_empty {H : Host}
    (st : DualMode.State) (w : World) :
  exists st',
    DualMode.handleSearch (st, w) = (Normal tt, (st', w))
    /\ (DualMode.filteredFlights st' = [] \/ DualMode.filteredAirports st' = [])
    /\ (trim (DualMode.searchTerm st) = [] ->
        DualMode.filteredFlights st' = DualMode.flights st
        /\ DualMode.filteredAirports st' = []).
Proof.
  destruct (dual_handleSearch_run st w) as (st' & E & _ & Ef & Ea).
  exists st'. split; [exact E |]. split.
  - destruct (isEmpty (trim (DualMode.searchTerm st))); [now right |].
    destruct (DualMode.searchType st); [now right | now left].
  - intros Hq. rewrite Hq in Ef, Ea. now split.
Qed.

Lemma handleSearch_leaves_one_subset_empty_witness :
  exists st',
    DualMode.handleSearch (H := sampleHost)
      (sampleDualState " " DualMode.airport, world0)
    = (Normal tt, (st', world0))
    /\ trim (DualMode.searchTerm (sampleDualState " " DualMode.airport)) = []
    /\ DualMode.filteredFlights st'
       = DualMode.flights (sampleDualState " " DualMode.airport)
    /\ DualMode.filteredAirports st' = [].
Proof.
  destruct (handleSearch_leaves_one_subset_empty (H := sampleHost)
              (sampleDualState " " DualMode.airport) world0)
    as (st' & E & _ & Hblank).
  exists st'. split; [exact E |]. split; [reflexivity |].
  exact (Hblank eq_refl).
Defined.

(** ** Numbers *)

Lemma floor_scaled_range (r : Q) (n : Z) :
  0 <= r -> r < 1 -> (0 < n)%Z ->
  (0 <= Math_floor (r * inject_Z n) < n)%Z.
Proof.
  intros H0 H1 Hn. unfold Math_floor.
  assert (Hq : inject_Z 0 < inject_Z n) by (rewrite <- Zlt_Qlt; exact Hn).
  change (inject_Z 0) with 0 in Hq.
  split.
  - rewrite <- (Qfloor_Z 0). apply Qfloor_resp_le.
    change (inject_Z 0) with 0. nra.
  - rewrite Zlt_Qlt.
    apply Qle_lt_trans with (r * inject_Z n); [apply Qfloor_le | nra].
Qed.

Lemma inject_floor_range (r : Q) (n : Z) :
  0 <= r -> r < 1 -> (0 < n)%Z ->
  0 <= inject_Z (Math_floor (r * inject_Z n))
  /\ inject_Z (Math_floor (r * inject_Z n)) < inject_Z n.
Proof.
  intros H0 H1 Hn.
  destruct (floor_scaled_range r n H0 H1 Hn) as [Hlo Hhi].
  split.
  - change 0 with (inject_Z 0). rewrite <- Zle_Qle. exact Hlo.
  - rewrite <- Zlt_Qlt. exact Hhi.
Qed.

(** The remainder of a non-negative number by 360. *)
Lemma js_rem_360 (x : Q) :
  0 <= x ->
  (0 <= js_rem x 360 /\ js_rem x 360 < 360)
  /\ exists turns : Z, js_rem x 360 == x - 360 * inject_Z turns.
Proof.
  intros Hx. unfold js_rem, Qtrunc.
  assert (Ht : 360 * (x / 360) == x) by (apply Qmult_div_r; discriminate).
  assert (Hpos : 0 <= x / 360) by lra.
  apply Qle_bool_iff in Hpos as Hb. rewrite Hb.
  pose proof (Qfloor_le (x / 360)) as Hlo.
  pose proof (Qlt_floor (x / 360)) as Hhi.
  rewrite inject_Z_plus in Hhi. change (inject_Z 1) with 1 in Hhi.
  split; [split; lra |].
  exists (Qfloor (x / 360)). reflexivity.
Qed.

Lemma clamp_between (lo hi x : Q) :
  lo <= hi -> between lo (Math_max lo (Math_min hi x)) hi.
Proof.
  intros Hle. unfold between, Math_max, Math_min. split.
  - apply Q.le_max_l.
  - apply Q.max_lub; [exact Hle | apply Q.le_min_l].
Qed.

(** ** The generators *)

(** Collects the range of every random number the goal mentions. *)
Ltac random_bounds HR :=
  repeat match goal with
         | |- context [random ?k] =>
             lazymatch goal with
             | _ : 0 <= random k /\ random k < 1 |- _ => fail
             | _ => pose proof (HR k)
             end
         end.

Ltac run_world :=
  cbv beta iota zeta delta
    [bind ret Math_random Date_now random_calls now_calls
     DualMode.mockFlight DualMode.mockAirport DualMode.randomCode
     DualMode.randomLetter DualMode.perturb LiveVariant.mockFlight].

Section Generators.
Context {H : Host}.
Hypothesis HR : RandomUnit H.

Lemma live_mockFlight_run (w : World) :
  exists f w',
    LiveVariant.mockFlight w = (Normal f, w') /\ livePositionInRange f.
Proof.
  run_world. eexists; eexists; split; [reflexivity |].
  unfold livePositionInRange, inFormulaRange.
  cbn [LiveVariant.latitude LiveVariant.longitude].
  eexists; eexists; split; [reflexivity |]; split; [reflexivity |].
  random_bounds HR. lra.
Qed.

Lemma dual_mockFlight_run (w : World) :
  exists f w',
    DualMode.mockFlight w = (Normal f, w')
    /\ (dualPositionInRange f /\ headingInRange f).
Proof.
  run_world. eexists; eexists; split; [reflexivity |].
  unfold dualPositionInRange, inFormulaRange, headingInRange.
  cbn [DualMode.latitude DualMode.longitude DualMode.direction].
  split.
  - random_bounds HR. lra.
  - match goal with
    | |- context [Math_floor (random ?k * 360)] =>
        destruct (HR k) as [H0 H1];
        exact (inject_floor_range (random k) 360 H0 H1 eq_refl)
    end.
Qed.

Lemma dual_mockAirport_run (w : World) :
  exists a w', DualMode.mockAirport w = (Normal a, w').
Proof.
  run_world. eexists; eexists; reflexivity.
Qed.

Lemma live_generateMockFlights_run (count : Z) (w : World) :
  exists l w',
    LiveVariant.generateMockFlights count w = (Normal l, w')
    /\ List.length l = Z.to_nat count
    /\ Forall livePositionInRange l.
Proof.
  apply repeatM_Forall. intros s.
  destruct (live_mockFlight_run s) as (f & s' & E & P). now exists f, s'.
Qed.

Lemma dual_generateMockFlights_run (count : Z) (w : World) :
  exists l w',
    DualMode.generateMockFlights count w = (Normal l, w')
    /\ List.length l = Z.to_nat count
    /\ Forall (fun f => dualPositionInRange f /\ headingInRange f) l.
Proof.
  apply repeatM_Forall. intros s.
  destruct (dual_mockFlight_run s) as (f & s' & E & P). now exists f, s'.
Qed.

Lemma dual_generateMockAirports_run (count : Z) (w : World) :
  exists l w',
    DualMode.generateMockAirports count w = (Normal l, w')
    /\ List.length l = Z.to_nat count.
Proof.
  apply repeatM_total. exact dual_mockAirport_run.
Qed.

End Generators.

(** C8: for every count N the generator of either component completes and
    returns exactly N flights, each with its latitude in the range [-90, 90)
    of [rand*180-90] and its longitude in the range [-180, 180) of
    [rand*360-180], given that [Math.random] returns numbers of [0, 1). *)
Theorem generateMockFlights_count_and_ranges {H : Host} (N : Z) (w : World) :
  RandomUnit H ->
  (0 <= N)%Z ->
  (exists l w',
     LiveVariant.generateMockFlights N w = (Normal l, w')
     /\ Z.of_nat (List.length l) = N
     /\ Forall livePositionInRange l)
  /\ (exists l w',
        DualMode.generateMockFlights N w = (Normal l, w')
        /\ Z.of_nat (List.length l) = N
        /\ Forall dualPositionInRange l).
Proof.
  intros HR HN. split.
  - destruct (live_generateMockFlights_run HR N w) as (l & w' & E & Len & F).
    exists l, w'. repeat split; [exact E | lia | exact F].
  - destruct (dual_generateMockFlights_run HR N w) as (l & w' & E & Len & F).
    exists l, w'. repeat split; [exact E | lia |].
    eapply Forall_impl; [| exact F]. intros f [P _]. exact P.
Qed.

Lemma generateMockFlights_count_and_ranges_witness :
  RandomUnit sampleHost
  /\ (0 <= 3)%Z
  /\ (exists l w',
        LiveVariant.generateMockFlights (H := sampleHost) 3 world0
        = (Normal l, w')
        /\ Z.of_nat (List.length l) = 3%Z
        /\ Forall livePositionInRange l)
  /\ (exists l w',
        DualMode.generateMockFlights (H := sampleHost) 3 world0
        = (Normal l, w')
        /\ Z.of_nat (List.length l) = 3%Z
        /\ Forall dualPositionInRange l).
Proof.
  split; [exact sampleHost_random |].
  split; [discriminate |].
  apply (generateMockFlights_count_and_ranges (H := sampleHost) 3 world0
           sampleHost_random).
  discriminate.
Defined.

(** ** The perturbation tick *)

Section Ticks.
Context {H : Host}.

Lemma perturb_frame (f : DualMode.Flight) (w : World) :
  exists f' w', DualMode.perturb f w = (Normal f', w') /\ sameButMotion f f'.
Proof.
  run_world. eexists; eexists; split; [reflexivity |].
  unfold sameButMotion. cbn. repeat split.
Qed.

Lemma perturb_bounds (f : DualMode.Flight) (w : World) :
  RandomUnit H -> headingInRange f ->
  exists f' w',
    DualMode.perturb f w = (Normal f', w') /\ perturbedWithinBounds f f'.
Proof.
  intros HR [Hd0 Hd1]. run_world. eexists; eexists; split; [reflexivity |].
  unfold perturbedWithinBounds, headingInRange, between.
  cbn [DualMode.latitude DualMode.longitude DualMode.altitude DualMode.speed
       DualMode.direction].
  random_bounds HR.
  repeat match goal with
         | Hr : 0 <= random ?k /\ random ?k < 1 |- _ =>
             let r := fresh "r" in
             set (r := random k) in *; clearbody r; destruct Hr
         end.
  split; [split; lra |]. split; [split; lra |].
  split.
  { exists (DualMode.altitude f + (r1 - (1 # 2)) * 1000).
    split; [split; lra | reflexivity]. }
  split; [apply clamp_between; discriminate |].
  split.
  { exists (DualMode.speed f + (r0 - (1 # 2)) * 50).
    split; [split; lra | reflexivity]. }
  split; [apply clamp_between; discriminate |].
  match goal with
  | |- context [js_rem ?x 360] =>
      destruct (js_rem_360 x) as [Hrange [turns Hturns]]; [lra |]
  end.
  split; [| exact Hrange].
  exists ((r - (1 # 2)) * 10), (turns + -1)%Z. split; [split; lra |].
  rewrite Hturns, inject_Z_plus. change (inject_Z (-1)) with (-(1)). lra.
Qed.

(** The interval handler maps [perturb] over the flights in order and
    writes nothing else. *)
Lemma dual_tick_run (Inv : DualMode.Flight -> Prop)
    (R : DualMode.Flight -> DualMode.Flight -> Prop) :
  (forall f w, Inv f ->
     exists f' w', DualMode.perturb f w = (Normal f', w') /\ R f f') ->
  forall st w, Forall Inv (DualMode.flights st) ->
    exists st' w',
      DualMode.tick (st, w) = (Normal tt, (st', w'))
      /\ Forall2 R (DualMode.flights st) (DualMode.flights st')
      /\ sameButFlights st st'.
Proof.
  intros Hp st w Hinv.
  destruct (mapM_Forall2 Inv R DualMode.perturb Hp (DualMode.flights st) w
              Hinv) as (l' & w' & E & F2).
  unfold DualMode.tick, bind, state, liftW, DualMode.setFlights, setState,
    modify. cbn [fst snd]. rewrite E.
  eexists; eexists; split; [reflexivity |]. cbn. split; [exact F2 |].
  unfold sameButFlights. cbn. repeat split.
Qed.

Lemma dual_then_handleSearch (m : Eff (DualMode.State * World) unit)
    (s : DualMode.State * World) (st1 : DualMode.State) (w1 : World) :
  m s = (Normal tt, (st1, w1)) ->
  exists st2,
    (m ;; DualMode.handleSearch) s = (Normal tt, (st2, w1))
    /\ sameButSubsets st1 st2.
Proof.
  intros E. unfold bind at 1. rewrite E.
  destruct (dual_handleSearch_run st1 w1) as (st2 & E2 & Hsame & _).
  now exists st2.
Qed.


Lemma step_inv (e : DualMode.event) (s s' : DualMode.State * World) :
  DualMode.step e s = Some s' ->
  exists h, DualMode.handler e (fst s) = Some h /\ h s = (Normal tt, s').
Proof.
  unfold DualMode.step. destruct (DualMode.handler e (fst s)) as [h |];
    [| discriminate].
  destruct (h s) as [[[] | ex] s1] eqn:Eh; [| discriminate].
  intros E. injection E as <-. now exists h.
Qed.

(** No handler of the flight/airport component throws. *)
Lemma step_Tick_total (s : DualMode.State * World) :
  exists st1 w1 st2,
    DualMode.tick s = (Normal tt, (st1, w1))
    /\ DualMode.step DualMode.Tick s = Some (st2, w1)
    /\ sameButSubsets st1 st2
    /\ Forall2 sameButMotion (DualMode.flights (fst s)) (DualMode.flights st1).
Proof.
  destruct s as [st w].
  destruct (dual_tick_run (fun _ => True) sameButMotion) with (st := st) (w := w)
    as (st1 & w1 & E & F2 & _).
  - intros f w0 _. apply perturb_frame.
  - apply Forall_forall. auto.
  - destruct (dual_then_handleSearch DualMode.tick (st, w) st1 w1 E)
      as (st2 & E2 & Hsame).
    exists st1, w1, st2. split; [exact E |]. split; [| now split].
    unfold DualMode.step. cbn [DualMode.handler]. now rewrite E2.
Qed.

End Ticks.

(** ** Reachable states of the flight/airport component *)

Section Reachability.
Context {H : Host}.

Lemma Forall2_right {A B : Type} (R : A -> B -> Prop) (P : B -> Prop)
    (l : list A) (l' : list B) :
  (forall x y, R x y -> P y) -> Forall2 R l l' -> Forall P l'.
Proof.
  intros HRP. induction 1; constructor; eauto.
Qed.

Lemma run_reachable (es : list DualMode.event)
    (s s' : DualMode.State * World) :
  DualMode.reachable s -> DualMode.run es s = Some s' ->
  DualMode.reachable s'.
Proof.
  revert s; induction es as [|e es IH]; intros s Hs; simpl.
  - intros E. injection E as <-. exact Hs.
  - destruct (DualMode.step e s) as [s1 |] eqn:E1; [| discriminate].
    apply IH. eapply DualMode.reach_step; eauto.
Qed.

Hypothesis HR : RandomUnit H.





End Reachability.



(** C5: the interval handler completes on every flight list; the new list has
    the length of the old one and its i-th record has the [flight_icao] of the
    old i-th record, and also its [flight_iata], [dep_iata], [arr_iata],
    [airline_icao], [airline_iata] and [status]: only latitude, longitude,
    altitude, speed and direction may differ. *)
Theorem tick_preserves_identity_and_order {H : Host}
    (s : DualMode.State * World) :
  exists s',
    DualMode.step DualMode.Tick s = Some s'
    /\ List.length (DualMode.flights (fst s'))
       = List.length (DualMode.flights (fst s))
    /\ forall i f, nth_error (DualMode.flights (fst s)) i = Some f ->
         exists f',
           nth_error (DualMode.flights (fst s')) i = Some f'
           /\ sameButMotion f f'.
Proof.
  destruct (step_Tick_total s) as (st1 & w1 & st2 & _ & E & Hs & F2).
  exists (st2, w1). cbn [fst]. rewrite (proj1 Hs).
  split; [exact E |]. split.
  - symmetry. eapply Forall2_length; eauto.
  - intros i f Hi. eapply Forall2_nth_error; eauto.
Qed.

Lemma tick_preserves_identity_and_order_witness :
  exists s',
    DualMode.step (H := sampleHost) DualMode.Tick
      (sampleSelecting DualMode.flight, world0) = Some s'
    /\ exists f',
         nth_error (DualMode.flights (fst s')) 1 = Some f'
         /\ sameButMotion (sampleDualFlight "AA4567" "AA456" 2) f'.
Proof.
  destruct (tick_preserves_identity_and_order (H := sampleHost)
              (sampleSelecting DualMode.flight, world0))
    as (s' & E & _ & Hi).
  exists s'. split; [exact E |].
  exact (Hi 1%nat (sampleDualFlight "AA4567" "AA456" 2) eq_refl).
Defined.

(** ** The refresh of the live-source component *)

Lemma mapM_lift {S A B : Type} (f : A -> completion B) (l : list A) (s : S) :
  mapM (fun x => lift (f x)) l s = (traverse f l, s).
Proof.
  induction l as [|x l IH]; simpl; [reflexivity |].
  unfold bind, lift at 1. destruct (f x) as [y | e]; simpl; [| reflexivity].
  rewrite IH. now destruct (traverse f l).
Qed.

Lemma traverse_throws {A B : Type} (f : A -> completion B) (l : list A)
    (x : A) (e : exn) :
  In x l -> f x = Throw e -> exists e', traverse f l = Throw e'.
Proof.
  induction l as [|y l IH]; intros Hin Hx; [contradiction |]. simpl.
  destruct Hin as [-> | Hin].
  - rewrite Hx. now exists e.
  - destruct (f y) as [b | e1]; simpl; [| now exists e1].
    destruct (IH Hin Hx) as [e' E]. rewrite E. now exists e'.
Qed.

Lemma traverse_thrower {A B : Type} (f : A -> completion B) (l : list A)
    (e : exn) :
  traverse f l = Throw e -> exists x, In x l /\ f x = Throw e.
Proof.
  induction l as [|y l IH]; simpl; [discriminate |].
  destruct (f y) as [b | e1] eqn:Ey; simpl.
  - destruct (traverse f l) as [ys | e2]; simpl; [discriminate |].
    intros E. injection E as ->.
    destruct (IH eq_refl) as (x & Hin & Hx). exists x. split; [now right | exact Hx].
  - intros E. injection E as ->. exists y. split; [now left | exact Ey].
Qed.

Lemma liveFailure_throws (outcome : LiveVariant.fetch_outcome) :
  liveFailure outcome <-> exists e, liveRecords outcome = Throw e.
Proof.
  split.
  - intros [| d Hd | d v Hd Hv Ha | d l x e Hd Hv Hx He]; simpl.
    + eauto.
    + rewrite Hd. eauto.
    + rewrite Hd, Hv. simpl. destruct v; try discriminate; eauto.
    + rewrite Hd, Hv. simpl. eapply traverse_throws; eauto.
  - destruct outcome as [| d]; simpl; [constructor |].
    destruct (truthy d) eqn:Hd; [| now constructor].
    destruct (LiveVariant.get_named d (str "states")) as [v | e0] eqn:Hv.
    + simpl. destruct v; try (intros _; eapply states_not_array; eauto; fail).
      intros [e E].
      destruct (traverse_thrower _ _ _ E) as (x & Hin & Hx).
      eapply mapping_exception; eauto.
    + destruct d; simpl in Hv; discriminate.
Qed.

Section Refresh.
Context {H : Host}.

Lemma live_mockFlight_total (w : World) :
  exists f w', LiveVariant.mockFlight w = (Normal f, w').
Proof.
  run_world. eexists; eexists; reflexivity.
Qed.

(** The [try] block either writes a live snapshot or throws without having
    written anything. *)
Lemma live_fetchLive_run (outcome : LiveVariant.fetch_outcome)
    (st : LiveVariant.State) (w : World) :
  match liveRecords outcome with
  | Normal records =>
      exists st',
        LiveVariant.fetchLive outcome (st, w) = (Normal tt, (st', w))
        /\ live records st'
        /\ LiveVariant.selectedFlight st' = LiveVariant.selectedFlight st
        /\ LiveVariant.searchTerm st' = LiveVariant.searchTerm st
        /\ LiveVariant.loading st' = LiveVariant.loading st
  | Throw e => LiveVariant.fetchLive outcome (st, w) = (Throw e, (st, w))
  end.
Proof.
  destruct outcome as [| d]; simpl; [reflexivity |].
  destruct (truthy d); [| reflexivity].
  destruct (LiveVariant.get_named d (str "states")) as [v | e];
    cbn [andThen]; [| reflexivity].
  destruct v; try reflexivity.
  destruct (traverse LiveVariant.mapState elements) as [records | e] eqn:Et.
  - unfold bind at 1, lift at 1. unfold bind at 1.
    rewrite mapM_lift, Et. cbn.
    eexists. split; [reflexivity |]. unfold live. cbn. repeat split.
  - unfold bind at 1, lift at 1. unfold bind at 1.
    rewrite mapM_lift, Et. reflexivity.
Qed.

(** The [catch] block writes a synthetic snapshot of a hundred flights. *)
Lemma live_fetchFallback_run (e : exn) (st : LiveVariant.State) (w : World) :
  exists st' w',
    LiveVariant.fetchFallback e (st, w) = (Normal tt, (st', w'))
    /\ synthetic st'
    /\ LiveVariant.selectedFlight st' = LiveVariant.selectedFlight st
    /\ LiveVariant.searchTerm st' = LiveVariant.searchTerm st
    /\ LiveVariant.loading st' = LiveVariant.loading st.
Proof.
  destruct (repeatM_total LiveVariant.mockFlight live_mockFlight_total
              (Z.to_nat 100) w) as (l & w1 & E & Len).
  unfold LiveVariant.fetchFallback.
  unfold bind at 1. unfold liftW at 1. cbn [fst snd].
  unfold LiveVariant.generateMockFlights. rewrite E. cbn.
  eexists; eexists; split; [reflexivity |]. unfold synthetic. cbn.
  repeat split; try assumption.
  exists LiveVariant.fetch_error_message. split; [reflexivity | discriminate].
Qed.

(** [fetchFlights] always completes normally: with the live snapshot when
    the [try] block got its records, with a synthetic one otherwise.  The
    selection and the query are not written. *)
Lemma live_fetchFlights_run (outcome : LiveVariant.fetch_outcome)
    (st : LiveVariant.State) (w : World) :
  exists st' w',
    LiveVariant.fetchFlights outcome (st, w) = (Normal tt, (st', w'))
    /\ LiveVariant.loading st' = false
    /\ LiveVariant.selectedFlight st' = LiveVariant.selectedFlight st
    /\ LiveVariant.searchTerm st' = LiveVariant.searchTerm st
    /\ match liveRecords outcome with
       | Normal records => live records st' /\ w' = w
       | Throw _ => synthetic st'
       end.
Proof.
  unfold LiveVariant.fetchFlights. unfold bind at 1.
  cbn [LiveVariant.setLoading setState modify fst snd].
  unfold finally, try_catch.
  match goal with
  | |- context [LiveVariant.fetchLive outcome (?s, w)] =>
      pose proof (live_fetchLive_run outcome s w) as Hlive;
      set (st1 := s) in *
  end.
  destruct (liveRecords outcome) as [records | e].
  - destruct Hlive as (st2 & E & Hl & Hsel & Hq & _).
    rewrite E. cbn. eexists; eexists; split; [reflexivity |].
    unfold live in *. cbn. intuition.
  - rewrite Hlive.
    destruct (live_fetchFallback_run e st1 w)
      as (st2 & w2 & E & Hs & Hsel & Hq & _).
    rewrite E. cbn. eexists; eexists; split; [reflexivity |].
    unfold synthetic in *. cbn. intuition.
Qed.

End Refresh.

Lemma mapState_vector (r : list jsval) :
  stateVector r ->
  LiveVariant.mapState (VArr r)
  = Normal (positional r (displayCallsign (nth 1 r VUndefined))).
Proof.
  intros [_ Hcs]. unfold LiveVariant.mapState.
  cbn [LiveVariant.get_index andThen].
  destruct Hcs as [[s E] | E]; rewrite E;
    cbn [LiveVariant.optional_trim andThen];
    unfold LiveVariant.or_else, displayCallsign, positional; cbn [truthy].
  - now destruct (isEmpty (trim s)).
  - reflexivity.
Qed.

(** What the [try] block computes from a payload of two state vectors. *)
Lemma liveRecords_two_vectors (data : jsval) (r1 r2 : list jsval) :
  truthy data = true ->
  LiveVariant.get_named data (str "states") = Normal (VArr [VArr r1; VArr r2]) ->
  stateVector r1 -> stateVector r2 ->
  liveRecords (LiveVariant.Resolved data)
  = Normal [positional r1 (displayCallsign (nth 1 r1 VUndefined));
            positional r2 (displayCallsign (nth 1 r2 VUndefined))].
Proof.
  intros Hd Hs H1 H2. simpl. rewrite Hd, Hs. cbn [andThen traverse].
  rewrite (mapState_vector r1 H1), (mapState_vector r2 H2). reflexivity.
Qed.

(** C2: whatever the outcome of the request, [fetchFlights] completes
    normally; when the request fails, the payload is missing or has no array
    of states, or a record cannot be mapped, the snapshot it leaves is marked
    synthetic, holds exactly 100 generated flights and carries a message that
    is not empty. *)
Theorem fetchFlights_never_throws {H : Host}
    (outcome : LiveVariant.fetch_outcome) (st : LiveVariant.State)
    (w : World) :
  exists st' w',
    LiveVariant.fetchFlights outcome (st, w) = (Normal tt, (st', w'))
    /\ (liveFailure outcome -> synthetic st').
Proof.
  destruct (live_fetchFlights_run outcome st w)
    as (st' & w' & E & _ & _ & _ & Hcase).
  exists st', w'. split; [exact E |].
  intros Hf. apply liveFailure_throws in Hf as [e Ee].
  now rewrite Ee in Hcase.
Qed.

Lemma fetchFlights_never_throws_witness :
  exists st' w',
    LiveVariant.fetchFlights (H := sampleHost) LiveVariant.Rejected
      (sampleLiveState "", world0) = (Normal tt, (st', w'))
    /\ liveFailure LiveVariant.Rejected
    /\ synthetic st'.
Proof.
  destruct (fetchFlights_never_throws (H := sampleHost) LiveVariant.Rejected
              (sampleLiveState "") world0) as (st' & w' & E & Hs).
  exists st', w'. split; [exact E |]. split; [exact network_error |].
  exact (Hs network_error).
Defined.

(** The other failures: a body that is null, a body without [states], a
    state vector that is null, a call sign that is a number. *)
Example liveFailure_kinds :
  liveFailure (LiveVariant.Resolved VNull)
  /\ liveFailure (LiveVariant.Resolved (VObj [(str "time", VNum 0)]))
  /\ liveFailure
       (LiveVariant.Resolved (VObj [(str "states", VArr [VNull])]))
  /\ liveFailure
       (LiveVariant.Resolved
          (VObj [(str "states", VArr [VArr [VStr (str "3c6444"); VNum 7]])])).
Proof.
  split; [| split; [| split]].
  - now apply missing_payload.
  - now apply states_not_array with (states := VUndefined).
  - apply mapping_exception with (l := [VNull]) (x := VNull) (e := TypeError);
      try reflexivity. now left.
  - apply mapping_exception with
      (l := [VArr [VStr (str "3c6444"); VNum 7]])
      (x := VArr [VStr (str "3c6444"); VNum 7]) (e := TypeError);
      try reflexivity. now left.
Qed.

(** C7, as the code has it: a payload whose [states] is an array of two
    state vectors gives a snapshot that is live, with no error, and holds
    exactly two flights; every field of a flight is the element at its
    position in the vector (0 [icao24], 2 [origin_country], 3
    [time_position], ..., 16 [position_source]) except [callsign], which is
    the element at position 1 with the surrounding white space removed, or
    "N/A" when that element is null or nothing is left of it. *)
Theorem live_payload_mapped_by_position {H : Host} (data : jsval)
    (r1 r2 : list jsval) (st : LiveVariant.State) (w : World) :
  truthy data = true ->
  LiveVariant.get_named data (str "states") = Normal (VArr [VArr r1; VArr r2]) ->
  stateVector r1 -> stateVector r2 ->
  exists st',
    LiveVariant.fetchFlights (LiveVariant.Resolved data) (st, w)
    = (Normal tt, (st', w))
    /\ live [positional r1 (displayCallsign (nth 1 r1 VUndefined));
             positional r2 (displayCallsign (nth 1 r2 VUndefined))] st'.
Proof.
  intros Hd Hs H1 H2.
  destruct (live_fetchFlights_run (LiveVariant.Resolved data) st w)
    as (st' & w' & E & _ & _ & _ & Hlive).
  rewrite (liveRecords_two_vectors data r1 r2 Hd Hs H1 H2) in Hlive.
  destruct Hlive as [Hl ->]. now exists st'.
Qed.

Lemma sampleVectors_wellformed :
  stateVector (elementsOf sampleVector1)
  /\ stateVector (elementsOf sampleVector2).
Proof.
  split; (split; [reflexivity |]); simpl; [left; eauto | now right].
Qed.

Lemma live_payload_mapped_by_position_witness :
  truthy samplePayload = true
  /\ LiveVariant.get_named samplePayload (str "states")
     = Normal (VArr [VArr (elementsOf sampleVector1);
                     VArr (elementsOf sampleVector2)])
  /\ stateVector (elementsOf sampleVector1)
  /\ stateVector (elementsOf sampleVector2)
  /\ exists st',
       LiveVariant.fetchFlights (H := sampleHost)
         (LiveVariant.Resolved samplePayload) (sampleLiveState "", world0)
       = (Normal tt, (st', world0))
       /\ live [positional (elementsOf sampleVector1) (VStr (str "DLH123"));
                positional (elementsOf sampleVector2) (VStr (str "N/A"))] st'.
Proof.
  split; [reflexivity |]. split; [reflexivity |].
  split; [exact (proj1 sampleVectors_wellformed) |].
  split; [exact (proj2 sampleVectors_wellformed) |].
  exact (live_payload_mapped_by_position (H := sampleHost) samplePayload
           (elementsOf sampleVector1) (elementsOf sampleVector2)
           (sampleLiveState "") world0 eq_refl eq_refl
           (proj1 sampleVectors_wellformed) (proj2 sampleVectors_wellformed)).
Defined.

(** The call sign of the first sample vector is padded, that of the second is
    null: the flights get "DLH123" and "N/A", not the elements at
    position 1. *)
Lemma live_payload_callsign_counterexample :
  (exists st',
     LiveVariant.fetchFlights (H := sampleHost)
       (LiveVariant.Resolved samplePayload) (sampleLiveState "", world0)
     = (Normal tt, (st', world0))
     /\ List.map LiveVariant.callsign (LiveVariant.flights st')
        = [VStr (str "DLH123"); VStr (str "N/A")]
     /\ List.map (fun v => nth 1 (elementsOf v) VUndefined)
          [sampleVector1; sampleVector2]
        = [VStr (str "DLH123  "); VNull])
  /\ ~ liveSnapshotPositional (H := sampleHost).
Proof.
  destruct (live_fetchFlights_run (H := sampleHost)
              (LiveVariant.Resolved samplePayload) (sampleLiveState "") world0)
    as (st2 & w2 & E2 & _ & _ & _ & Hlive).
  rewrite (liveRecords_two_vectors samplePayload (elementsOf sampleVector1)
             (elementsOf sampleVector2) eq_refl eq_refl
             (proj1 sampleVectors_wellformed) (proj2 sampleVectors_wellformed))
    in Hlive.
  destruct Hlive as [(_ & _ & F2 & _) ->]. split.
  - exists st2. split; [exact E2 |]. rewrite F2. split; reflexivity.
  - intros Hc.
    destruct (Hc samplePayload (elementsOf sampleVector1)
                (elementsOf sampleVector2) (sampleLiveState "") world0
                eq_refl eq_refl (proj1 sampleVectors_wellformed)
                (proj2 sampleVectors_wellformed))
      as (st1 & w1 & E1 & _ & _ & F1 & _).
    rewrite E1 in E2. injection E2 as -> _.
    rewrite F1 in F2. discriminate.
Qed.

(** ** Selection *)

Lemma filterM_state {S A : Type} (f : A -> Eff S bool) (l : list A) :
  (forall x s, snd (f x s) = s) -> forall s, snd (filterM f l s) = s.
Proof.
  intros Hf. induction l as [|x l IH]; intros s; simpl; [reflexivity |].
  unfold bind at 1. specialize (Hf x s).
  destruct (f x s) as [[keep | e] s1]; simpl in Hf; subst s1;
    [| reflexivity].
  unfold bind at 1. specialize (IH s).
  destruct (filterM f l s) as [[ys | e] s1]; simpl in IH; subst s1;
    reflexivity.
Qed.

Section Selection.
Context {H : Host}.

Lemma live_flightMatches_state {S : Type} (q : jsstring)
    (f : LiveVariant.Flight) (s : S) :
  snd (LiveVariant.flightMatches q f s) = s.
Proof.
  unfold LiveVariant.flightMatches, LiveVariant.method_toLowerCase, bind.
  destruct (LiveVariant.icao24 f); try reflexivity. cbn.
  destruct (includes (toLowerCase s0) q); [reflexivity |].
  destruct (LiveVariant.callsign f); cbn;
    repeat match goal with
           | |- context [if ?c then _ else _] => destruct c
           end; reflexivity.
Qed.

(** The filter never writes the selection, whether it completes or
    throws. *)
Lemma live_handleSearch_selection (s : LiveVariant.State * World) :
  LiveVariant.selectedFlight (fst (snd (LiveVariant.handleSearch s)))
  = LiveVariant.selectedFlight (fst s).
Proof.
  destruct s as [st w]. unfold LiveVariant.handleSearch, bind at 1, state.
  cbn [fst snd].
  destruct (isEmpty (trim (LiveVariant.searchTerm st))); [reflexivity |].
  unfold bind at 1.
  pose proof (filterM_state
                (LiveVariant.flightMatches
                   (toLowerCase (LiveVariant.searchTerm st)))
                (LiveVariant.flights st)
                (live_flightMatches_state _) (st, w)) as Hs.
  destruct (filterM _ _ (st, w)) as [[l | e] s1]; simpl in Hs; subst s1;
    reflexivity.
Qed.

(** A click on a marker of the live-source component selects its flight,
    whatever was selected. *)
Lemma live_clickMarker_selects (st : LiveVariant.State) (w : World) (i : nat)
    (f : LiveVariant.Flight) :
  nth_error (LiveVariant.filteredFlights st) i = Some f ->
  LiveVariant.hasMarker f = true ->
  exists st',
    LiveVariant.clickMarker i (st, w) = (Normal tt, (st', w))
    /\ LiveVariant.selectedFlight st' = Some f
    /\ LiveVariant.flights st' = LiveVariant.flights st.
Proof.
  intros Hi Hm. unfold LiveVariant.clickMarker, bind, state. cbn [fst].
  rewrite Hi, Hm. cbn. eexists. split; [reflexivity |]. now cbn.
Qed.

Lemma dual_click_flight (st : DualMode.State) (w : World) (i : nat)
    (f : DualMode.Flight) :
  DualMode.searchType st = DualMode.flight ->
  nth_error (DualMode.filteredFlights st) i = Some f ->
  exists st',
    DualMode.step (DualMode.ClickFlightMarker i) (st, w) = Some (st', w)
    /\ DualMode.selectedFlight st' = Some f
    /\ DualMode.selectedAirport st' = DualMode.selectedAirport st.
Proof.
  intros Hty Hi. unfold DualMode.step. cbn [DualMode.handler fst].
  rewrite Hty, Hi. cbn. eexists. split; [reflexivity |]. now cbn.
Qed.

Lemma dual_click_airport (st : DualMode.State) (w : World) (i : nat)
    (a : DualMode.Airport) :
  DualMode.searchType st = DualMode.airport ->
  nth_error (DualMode.filteredAirports st) i = Some a ->
  exists st',
    DualMode.step (DualMode.ClickAirportMarker i) (st, w) = Some (st', w)
    /\ DualMode.selectedAirport st' = Some a
    /\ DualMode.selectedFlight st' = DualMode.selectedFlight st.
Proof.
  intros Hty Hi. unfold DualMode.step. cbn [DualMode.handler fst].
  rewrite Hty, Hi. cbn. eexists. split; [reflexivity |]. now cbn.
Qed.

Lemma recordPanel_detail (st : DualMode.State) :
  (forall f, DualMode.recordPanel st = DualMode.FlightDetail f ->
     DualMode.searchType st = DualMode.flight
     /\ DualMode.selectedFlight st = Some f)
  /\ (forall a, DualMode.recordPanel st = DualMode.AirportDetail a ->
        DualMode.searchType st = DualMode.airport
        /\ DualMode.selectedAirport st = Some a).
Proof.
  unfold DualMode.recordPanel.
  destruct (DualMode.searchType st);
    [destruct (DualMode.filteredFlights st), (DualMode.selectedFlight st)
    | destruct (DualMode.filteredAirports st), (DualMode.selectedAirport st)];
    split; intros x E; try discriminate; injection E as <-; auto.
Qed.

Lemma sidePanel_detail (st : DualMode.State) :
  (forall f, DualMode.sidePanel st = DualMode.FlightDetail f ->
     DualMode.searchType st = DualMode.flight
     /\ DualMode.selectedFlight st = Some f)
  /\ (forall a, DualMode.sidePanel st = DualMode.AirportDetail a ->
        DualMode.searchType st = DualMode.airport
        /\ DualMode.selectedAirport st = Some a).
Proof.
  destruct (recordPanel_detail st) as [Hf Ha].
  unfold DualMode.sidePanel.
  destruct (DualMode.loading st); [split; discriminate |].
  destruct (DualMode.error st) as [msg |]; [| now split].
  destruct (isEmpty msg); [now split | split; discriminate].
Qed.

End Selection.

(** C9: a refresh does not write the selection.  When a flight X is selected,
    [fetchFlights] completes, whatever the request gave, and X is still the
    selected flight; the filter that runs next leaves it too.  So X stays
    selected also when the new snapshot has no flight with its identity. *)
Theorem refresh_keeps_selection {H : Host}
    (outcome : LiveVariant.fetch_outcome) (st : LiveVariant.State) (w : World)
    (X : LiveVariant.Flight) :
  LiveVariant.selectedFlight st = Some X ->
  exists st' w',
    LiveVariant.fetchFlights outcome (st, w) = (Normal tt, (st', w'))
    /\ LiveVariant.selectedFlight st' = Some X
    /\ LiveVariant.selectedFlight
         (fst (snd (LiveVariant.handleSearch (st', w')))) = Some X.
Proof.
  intros HX.
  destruct (live_fetchFlights_run outcome st w)
    as (st' & w' & E & _ & Hsel & _).
  exists st', w'. split; [exact E |].
  rewrite live_handleSearch_selection. cbn [fst].
  rewrite Hsel. now split.
Qed.

Lemma refresh_keeps_selection_witness :
  LiveVariant.selectedFlight (sampleLiveState "")
  = Some (sampleLiveFlight "ffffff" "XX000")
  /\ exists st' w',
       LiveVariant.fetchFlights (H := sampleHost)
         (LiveVariant.Resolved samplePayload) (sampleLiveState "", world0)
       = (Normal tt, (st', w'))
       /\ ~ In (VStr (str "ffffff"))
            (List.map LiveVariant.icao24 (LiveVariant.flights st'))
       /\ LiveVariant.selectedFlight st'
          = Some (sampleLiveFlight "ffffff" "XX000").
Proof.
  split; [reflexivity |].
  destruct (refresh_keeps_selection (H := sampleHost)
              (LiveVariant.Resolved samplePayload) (sampleLiveState "") world0
              (sampleLiveFlight "ffffff" "XX000") eq_refl)
    as (st' & w' & E & Hsel & _).
  exists st', w'. split; [exact E |]. split; [| exact Hsel].
  assert (Ec : LiveVariant.fetchFlights (H := sampleHost)
                 (LiveVariant.Resolved samplePayload)
                 (sampleLiveState "", world0)
               = (Normal tt, (st', w'))) by exact E.
  vm_compute in Ec. injection Ec as <- _.
  vm_compute. intros [F | [F | []]]; discriminate.
Defined.

(** ** One selection slot per record type *)

Lemma afterBothClicks_facts :
  DualMode.run (H := sampleHost) clickPlaneThenAirport
    (DualMode.mounted (H := sampleHost)) = Some afterBothClicks
  /\ option_map DualMode.flight_icao
       (DualMode.selectedFlight (fst afterBothClicks)) = Some (str "AA4330")
  /\ option_map DualMode.iata_code
       (DualMode.selectedAirport (fst afterBothClicks)) = Some (str "AJT").
Proof. vm_compute. repeat split. Qed.

(** After a click on a plane, a change of mode, a query and a click on an
    airport, the flight AA4330 and the airport AJT are both selected. *)
Lemma both_selected_counterexample :
  (DualMode.run (H := sampleHost) clickPlaneThenAirport
     (DualMode.mounted (H := sampleHost)) = Some afterBothClicks
   /\ option_map DualMode.flight_icao
        (DualMode.selectedFlight (fst afterBothClicks)) = Some (str "AA4330")
   /\ option_map DualMode.iata_code
        (DualMode.selectedAirport (fst afterBothClicks)) = Some (str "AJT"))
  /\ ~ neverBothSelected (H := sampleHost).
Proof.
  split; [exact afterBothClicks_facts |].
  intros Hc. destruct afterBothClicks_facts as (Hrun & Hf & Ha).
  apply (Hc afterBothClicks).
  - eapply run_reachable; [apply DualMode.reach_mount | exact Hrun].
  - generalize dependent afterBothClicks. intros s _ Hf Ha.
    split; intros E; rewrite E in *; discriminate.
Qed.

(** C6, as the code has it: the flight and the airport have a selection slot
    each.  A click on a flight marker makes that flight the selected flight,
    whatever was selected, and leaves the selected airport; a click on an
    airport marker makes that airport the selected airport and leaves the
    selected flight.  The side panel shows the detail of one record at most:
    the selected flight in flight mode, the selected airport in airport
    mode. *)
Theorem selection_is_per_record_type {H : Host} (st : DualMode.State)
    (w : World) (i : nat) :
  (forall f,
     DualMode.searchType st = DualMode.flight ->
     nth_error (DualMode.filteredFlights st) i = Some f ->
     exists st',
       DualMode.step (DualMode.ClickFlightMarker i) (st, w) = Some (st', w)
       /\ DualMode.selectedFlight st' = Some f
       /\ DualMode.selectedAirport st' = DualMode.selectedAirport st)
  /\ (forall a,
        DualMode.searchType st = DualMode.airport ->
        nth_error (DualMode.filteredAirports st) i = Some a ->
        exists st',
          DualMode.step (DualMode.ClickAirportMarker i) (st, w) = Some (st', w)
          /\ DualMode.selectedAirport st' = Some a
          /\ DualMode.selectedFlight st' = DualMode.selectedFlight st)
  /\ (forall f, DualMode.sidePanel st = DualMode.FlightDetail f ->
        DualMode.searchType st = DualMode.flight
        /\ DualMode.selectedFlight st = Some f)
  /\ (forall a, DualMode.sidePanel st = DualMode.AirportDetail a ->
        DualMode.searchType st = DualMode.airport
        /\ DualMode.selectedAirport st = Some a).
Proof.
  split; [intros f; apply dual_click_flight |].
  split; [intros a; apply dual_click_airport |].
  apply sidePanel_detail.
Qed.

Lemma selection_is_per_record_type_witness :
  (exists st',
     DualMode.step (H := sampleHost) (DualMode.ClickFlightMarker 1)
       (sampleSelecting DualMode.flight, world0) = Some (st', world0)
     /\ DualMode.selectedFlight st' = Some (sampleDualFlight "AA4567" "AA456" 2)
     /\ DualMode.selectedAirport st' = Some (sampleDualAirport "JFK"))
  /\ (exists st',
        DualMode.step (H := sampleHost) (DualMode.ClickAirportMarker 1)
          (sampleSelecting DualMode.airport, world0) = Some (st', world0)
        /\ DualMode.selectedAirport st' = Some (sampleDualAirport "LHR")
        /\ DualMode.selectedFlight st'
           = Some (sampleDualFlight "DL1234" "DL123" 358)).
Proof.
  split.
  - exact (proj1 (selection_is_per_record_type (H := sampleHost)
                    (sampleSelecting DualMode.flight) world0 1)
             (sampleDualFlight "AA4567" "AA456" 2) eq_refl eq_refl).
  - exact (proj1 (proj2 (selection_is_per_record_type (H := sampleHost)
                           (sampleSelecting DualMode.airport) world0 1))
             (sampleDualAirport "LHR") eq_refl eq_refl).
Defined.

(** * Further properties of the flight/airport component *)

Section DualHandlers.
Context {H : Host}.

Lemma dual_mockFlight_completes (w : World) :
  exists f w', DualMode.mockFlight w = (Normal f, w').
Proof.
  run_world. eexists; eexists; reflexivity.
Qed.

Lemma dual_generateMockFlights_total (count : Z) (w : World) :
  exists l w',
    DualMode.generateMockFlights count w = (Normal l, w')
    /\ List.length l = Z.to_nat count.
Proof.
  apply repeatM_total. exact dual_mockFlight_completes.
Qed.

Lemma settled_of_subsets (st1 st2 : DualMode.State) :
  sameButSubsets st1 st2 ->
  DualMode.filteredFlights st2 = derivedFlights st1 ->
  DualMode.filteredAirports st2 = derivedAirports st1 ->
  settled st2.
Proof.
  intros (Hf & Ha & _ & _ & _ & Hq & Hty & _) Ef Ea.
  unfold settled, derivedFlights, derivedAirports in *.
  rewrite Hf, Ha, Hq, Hty. now split.
Qed.

Lemma dual_handleSearch_settled (st : DualMode.State) (w : World) :
  exists st',
    DualMode.handleSearch (st, w) = (Normal tt, (st', w))
    /\ sameButSubsets st st' /\ settled st'.
Proof.
  destruct (dual_handleSearch_run st w) as (st' & E & Hs & Ef & Ea).
  exists st'. split; [exact E |]. split; [exact Hs |].
  now apply settled_of_subsets with (st1 := st).
Qed.

Lemma dual_then_handleSearch_settled (m : Eff (DualMode.State * World) unit)
    (s : DualMode.State * World) (st1 : DualMode.State) (w1 : World) :
  m s = (Normal tt, (st1, w1)) ->
  exists st2,
    (m ;; DualMode.handleSearch) s = (Normal tt, (st2, w1))
    /\ sameButSubsets st1 st2 /\ settled st2.
Proof.
  intros E. unfold bind at 1. rewrite E.
  apply dual_handleSearch_settled.
Qed.

(** [fetchMockData] ends with the spinner off and the error cleared, and
    writes neither the selections nor the query. *)
Lemma dual_fetchMockData_status (st : DualMode.State) (w : World) :
  exists st' w',
    DualMode.fetchMockData (st, w) = (Normal tt, (st', w'))
    /\ List.length (DualMode.flights st') = 100%nat
    /\ List.length (DualMode.airports st') = 50%nat
    /\ DualMode.error st' = None /\ DualMode.loading st' = false
    /\ sameSelection st st' /\ sameQuery st st'.
Proof.
  destruct (dual_generateMockFlights_total 100 w) as (lf & w1 & Ef & Lf).
  destruct (dual_generateMockAirports_run 50 w1) as (la & w2 & Ea & La).
  unfold DualMode.fetchMockData.
  cbn -[DualMode.generateMockFlights DualMode.generateMockAirports].
  unfold finally, try_catch.
  unfold bind at 1. unfold liftW at 1. cbn [fst snd]. rewrite Ef.
  unfold bind at 1. unfold liftW at 1. cbn [fst snd]. rewrite Ea.
  cbn.
  eexists; eexists; split; [reflexivity |]. cbn.
  unfold sameSelection, sameQuery. cbn. repeat split; assumption.
Qed.

(** What each event does. *)
Lemma step_effect (e : DualMode.event) (st st' : DualMode.State)
    (w w' : World) :
  DualMode.step e (st, w) = Some (st', w') -> stepEffect e st st'.
Proof.
  intros Hstep.
  destruct (step_inv e (st, w) (st', w') Hstep) as (h & Hh & Hrun).
  cbn [fst] in Hh.
  destruct e; cbn [DualMode.handler] in Hh; cbn [stepEffect].
  - destruct (DualMode.sidePanel st) eqn:Ep; try discriminate.
    injection Hh as <-.
    destruct (dual_fetchMockData_status st w)
      as (st1 & w1 & E1 & Lf & La & Herr & Hld & Hsel & Hq).
    destruct (dual_then_handleSearch_settled _ _ _ _ E1)
      as (st2 & E2 & Hs & Hset).
    rewrite E2 in Hrun. injection Hrun as <- <-.
    destruct Hs as (Hf & Ha & Hsf & Hsa & He & Hterm & Hty & Hl).
    unfold sameSelection, sameQuery in *.
    rewrite Hf, Ha, He, Hl, Hsf, Hsa, Hterm, Hty.
    split; [eauto |]. intuition.
  - injection Hh as <-.
    destruct (dual_tick_run (fun _ => True) sameButMotion) with
      (st := st) (w := w) as (st1 & w1 & E1 & F2 & Hfr).
    { intros f w0 _. apply perturb_frame. }
    { apply Forall_forall. auto. }
    destruct (dual_then_handleSearch_settled _ _ _ _ E1)
      as (st2 & E2 & Hs & Hset).
    rewrite E2 in Hrun. injection Hrun as <- <-.
    destruct Hs as (Hf & Ha & Hsf & Hsa & He & Hterm & Hty & Hl).
    destruct Hfr as (_ & Ha1 & _ & Hsf1 & Hsa1 & He1 & Hterm1 & Hty1 & Hl1).
    unfold sameSelection, sameStatus, sameQuery.
    rewrite Hf, Ha, Hsf, Hsa, He, Hterm, Hty, Hl.
    intuition.
  - injection Hh as <-.
    destruct (dual_then_handleSearch_settled (DualMode.setSearchTerm value)
                (st, w) _ _ eq_refl) as (st2 & E2 & Hs & Hset).
    rewrite E2 in Hrun. injection Hrun as <- <-.
    destruct Hs as (Hf & Ha & Hsf & Hsa & He & Hterm & Hty & Hl).
    unfold sameData, sameSelection, sameStatus.
    rewrite Hf, Ha, Hsf, Hsa, He, Hterm, Hty, Hl. cbn. intuition.
  - injection Hh as <-.
    destruct (dual_then_handleSearch_settled (DualMode.setSearchType value)
                (st, w) _ _ eq_refl) as (st2 & E2 & Hs & Hset).
    rewrite E2 in Hrun. injection Hrun as <- <-.
    destruct Hs as (Hf & Ha & Hsf & Hsa & He & Hterm & Hty & Hl).
    unfold sameData, sameSelection, sameStatus.
    rewrite Hf, Ha, Hsf, Hsa, He, Hterm, Hty, Hl. cbn. intuition.
  - injection Hh as <-.
    destruct (dual_handleSearch_settled st w) as (st2 & E2 & Hs & Hset).
    rewrite E2 in Hrun. injection Hrun as <- _.
    destruct Hs as (Hf & Ha & Hsf & Hsa & He & Hterm & Hty & Hl).
    unfold sameQuery, sameData, sameSelection, sameStatus. intuition.
  - destruct (DualMode.searchType st) eqn:Ety; try discriminate.
    destruct (nth_error (DualMode.filteredFlights st) i) as [f |] eqn:Ei;
      try discriminate.
    injection Hh as <-. cbn in Hrun. injection Hrun as <- _.
    unfold sameQuery, sameData, sameSubsets, sameStatus. cbn.
    split; [reflexivity |]. split; [now exists f |]. intuition.
  - destruct (DualMode.searchType st) eqn:Ety; try discriminate.
    destruct (nth_error (DualMode.filteredAirports st) i) as [a |] eqn:Ei;
      try discriminate.
    injection Hh as <-. cbn in Hrun. injection Hrun as <- _.
    unfold sameQuery, sameData, sameSubsets, sameStatus. cbn.
    split; [reflexivity |]. split; [now exists a |]. intuition.
Qed.

End DualHandlers.

Lemma dual_state_ext (a b : DualMode.State) :
  sameButSubsets a b -> sameSubsets a b -> b = a.
Proof.
  destruct a, b. unfold sameButSubsets, sameSubsets. cbn.
  intros (-> & -> & -> & -> & -> & -> & -> & ->) (-> & ->). reflexivity.
Qed.

Lemma js_index_In (l : list jsval) (i : Z) :
  (0 <= i < Z.of_nat (List.length l))%Z -> In (js_index l i) l.
Proof.
  intros [H0 H1]. unfold js_index.
  destruct (i <? 0)%Z eqn:E; [apply Z.ltb_lt in E; lia |].
  apply nth_In. lia.
Qed.

Lemma floor_affine_range (r : Q) (lo n : Z) :
  0 <= r -> r < 1 -> (0 < n)%Z ->
  (lo <= Math_floor (inject_Z lo + r * inject_Z n) < lo + n)%Z.
Proof.
  intros H0 H1 Hn. unfold Math_floor.
  assert (Hq : inject_Z 0 < inject_Z n) by (rewrite <- Zlt_Qlt; exact Hn).
  change (inject_Z 0) with 0 in Hq.
  split.
  - rewrite <- (Qfloor_Z lo) at 1. apply Qfloor_resp_le. nra.
  - rewrite Zlt_Qlt.
    apply Qle_lt_trans with (inject_Z lo + r * inject_Z n);
      [apply Qfloor_le |].
    rewrite inject_Z_plus. nra.
Qed.

Lemma fromCharCode_capital (k : Z) :
  (0 <= k < 26)%Z ->
  exists c, fromCharCode (65 + k) = [c] /\ (65 <= c <= 90)%N.
Proof.
  intros Hk. unfold fromCharCode. eexists. split; [reflexivity |].
  rewrite Z.mod_small by lia. lia.
Qed.

Section DualGenerated.
Context {H : Host}.
Hypothesis HR : RandomUnit H.

Lemma randomLetter_run (w : World) :
  exists c,
    DualMode.randomLetter w
    = (Normal [c], {| random_calls := S (random_calls w);
                      now_calls := now_calls w |})
    /\ (65 <= c <= 90)%N.
Proof.
  unfold DualMode.randomLetter, bind, Math_random, ret.
  destruct (HR (random_calls w)) as [H0 H1].
  destruct (fromCharCode_capital
              (Math_floor (random (random_calls w) * 26))) as (c & E & Hc).
  { exact (floor_scaled_range _ 26 H0 H1 eq_refl). }
  exists c. rewrite E. split; [reflexivity | exact Hc].
Qed.

Lemma randomCode_run (w : World) :
  exists s w',
    DualMode.randomCode w = (Normal s, w') /\ threeCapitals s.
Proof.
  unfold DualMode.randomCode. unfold bind at 1.
  destruct (randomLetter_run w) as (a & -> & Ha).
  unfold bind at 1.
  destruct (randomLetter_run
              {| random_calls := S (random_calls w); now_calls := now_calls w |})
    as (b & -> & Hb).
  cbn [random_calls now_calls]. unfold bind at 1.
  destruct (randomLetter_run
              {| random_calls := S (S (random_calls w));
                 now_calls := now_calls w |})
    as (c & -> & Hc).
  eexists; eexists; split; [reflexivity |].
  split; [reflexivity |].
  repeat (apply Forall_cons; [assumption |]). apply Forall_nil.
Qed.

Lemma airline_code (i : Z) :
  (0 <= i < 10)%Z ->
  exists a, js_index DualMode.airlines i = VStr a /\ In a airlineCodes.
Proof.
  intros Hi.
  assert (Hc : (i = 0 \/ i = 1 \/ i = 2 \/ i = 3 \/ i = 4 \/ i = 5 \/ i = 6
                \/ i = 7 \/ i = 8 \/ i = 9)%Z) by lia.
  unfold airlineCodes.
  repeat (destruct Hc as [-> | Hc]; [eexists; split; [reflexivity |];
                                      simpl; tauto |]).
  subst i. eexists; split; [reflexivity |]. simpl; tauto.
Qed.

Lemma dual_mockFlight_format (w : World) :
  exists f w',
    DualMode.mockFlight w = (Normal f, w')
    /\ (mockFlightFormat f /\ motionInRange f).
Proof.
  unfold DualMode.mockFlight.
  unfold bind at 1, Math_random at 1.
  unfold bind at 1, Math_random at 1.
  unfold bind at 1, Math_random at 1.
  cbn [random_calls now_calls].
  unfold bind at 1.
  match goal with
  | |- context [DualMode.randomCode ?w0] =>
      destruct (randomCode_run w0) as (dep & w1 & -> & Hdep)
  end.
  unfold bind at 1.
  destruct (randomCode_run w1) as (arr & w2 & -> & Harr).
  run_world. eexists; eexists; split; [reflexivity |].
  unfold mockFlightFormat, motionInRange, headingInRange, between.
  cbn [DualMode.flight_icao DualMode.flight_iata DualMode.airline_icao
       DualMode.airline_iata DualMode.dep_iata DualMode.arr_iata
       DualMode.status DualMode.altitude DualMode.speed DualMode.direction].
  random_bounds HR.
  repeat match goal with
         | Hr : 0 <= random ?k /\ random ?k < 1 |- _ =>
             let r := fresh "r" in
             set (r := random k) in *; clearbody r; destruct Hr
         end.
  match goal with
  | |- context [js_index DualMode.airlines ?i] =>
      destruct (airline_code i) as (a & Ea & Hin);
        [match goal with
         | |- context [Math_floor (?r * _)] =>
             apply (floor_scaled_range r 10); assumption || reflexivity
         end |];
      rewrite Ea
  end.
  split.
  - match goal with
    | |- context [Math_floor (1000 + ?r1 * 9000)] =>
        pose proof (floor_affine_range r1 1000 9000) as Hn
    end.
    match goal with
    | |- context [Math_floor (100 + ?r2 * 900)] =>
        pose proof (floor_affine_range r2 100 900) as Hm
    end.
    eexists a, _, _. cbn [DualMode.interpolate].
    split; [exact Hin |].
    split; [| split; [| split; [reflexivity | split; [reflexivity |]]]].
    + specialize (Hn ltac:(assumption) ltac:(assumption) eq_refl).
      change (inject_Z 1000) with 1000 in Hn.
      change (inject_Z 9000) with 9000 in Hn. lia.
    + specialize (Hm ltac:(assumption) ltac:(assumption) eq_refl).
      change (inject_Z 100) with 100 in Hm.
      change (inject_Z 900) with 900 in Hm. lia.
    + split; [reflexivity |]. split; [reflexivity |].
      split; [exact Hdep |]. split; [exact Harr |].
      apply js_index_In.
      match goal with
      | |- context [Math_floor (?r * _)] =>
          apply (floor_scaled_range r 5); assumption || reflexivity
      end.
  - split; [| split].
    + match goal with
      | |- context [Math_floor (?r * 40000)] =>
          pose proof (floor_scaled_range r 40000 ltac:(assumption)
                        ltac:(assumption) eq_refl) as [Ha0 Ha1]
      end.
      change (inject_Z 40000) with 40000 in *.
      split.
      * change 5000 with (inject_Z 5000). rewrite <- Zle_Qle. lia.
      * change 45000 with (inject_Z 45000). rewrite <- Zlt_Qlt. lia.
    + match goal with
      | |- context [Math_floor (?r * 500)] =>
          pose proof (floor_scaled_range r 500 ltac:(assumption)
                        ltac:(assumption) eq_refl) as [Ha0 Ha1]
      end.
      change (inject_Z 500) with 500 in *.
      split.
      * change 300 with (inject_Z 300). rewrite <- Zle_Qle. lia.
      * change 800 with (inject_Z 800). rewrite <- Zle_Qle. lia.
    + match goal with
      | |- context [Math_floor (?r * 360)] =>
          exact (inject_floor_range r 360 ltac:(assumption)
                   ltac:(assumption) eq_refl)
      end.
Qed.

End DualGenerated.

Section DualInvariants.
Context {H : Host}.

Lemma dual_mockAirport_format (HR : RandomUnit H) (w : World) :
  exists a w', DualMode.mockAirport w = (Normal a, w') /\ mockAirportFormat a.
Proof.
  unfold DualMode.mockAirport. unfold bind at 1.
  destruct (randomCode_run HR w) as (code & w1 & -> & Hcode).
  run_world. eexists; eexists; split; [reflexivity |].
  unfold mockAirportFormat.
  cbn [DualMode.iata_code DualMode.airport_name DualMode.icao_code
       DualMode.city_iata_code DualMode.country_name].
  repeat split; try exact (proj1 Hcode); try exact (proj2 Hcode).
  apply js_index_In.
  match goal with
  | |- context [Math_floor (random ?k * _)] =>
      destruct (HR k) as [H0 H1];
      exact (floor_scaled_range (random k) 10 H0 H1 eq_refl)
  end.
Qed.

(** [fetchMockData] with what is known of every generated flight and
    airport. *)
Lemma dual_fetchMockData_lists (P : DualMode.Flight -> Prop)
    (Q : DualMode.Airport -> Prop) :
  (forall w, exists f w', DualMode.mockFlight w = (Normal f, w') /\ P f) ->
  (forall w, exists a w', DualMode.mockAirport w = (Normal a, w') /\ Q a) ->
  forall st w,
  exists st' w',
    DualMode.fetchMockData (st, w) = (Normal tt, (st', w'))
    /\ Forall P (DualMode.flights st') /\ Forall Q (DualMode.airports st').
Proof.
  intros HP HQ st w.
  destruct (repeatM_Forall P DualMode.mockFlight HP (Z.to_nat 100) w)
    as (lf & w1 & Ef & _ & Ff).
  destruct (repeatM_Forall Q DualMode.mockAirport HQ (Z.to_nat 50) w1)
    as (la & w2 & Ea & _ & Fa).
  unfold DualMode.fetchMockData.
  cbn -[DualMode.generateMockFlights DualMode.generateMockAirports].
  unfold finally, try_catch.
  unfold bind at 1. unfold liftW at 1. cbn [fst snd].
  unfold DualMode.generateMockFlights at 1. rewrite Ef.
  unfold bind at 1. unfold liftW at 1. cbn [fst snd].
  unfold DualMode.generateMockAirports at 1. rewrite Ea.
  cbn.
  eexists; eexists; split; [reflexivity |]. cbn. now split.
Qed.

Lemma mounted_lists (P : DualMode.Flight -> Prop)
    (Q : DualMode.Airport -> Prop) :
  (forall w, exists f w', DualMode.mockFlight w = (Normal f, w') /\ P f) ->
  (forall w, exists a w', DualMode.mockAirport w = (Normal a, w') /\ Q a) ->
  Forall P (DualMode.flights (fst DualMode.mounted))
  /\ Forall Q (DualMode.airports (fst DualMode.mounted)).
Proof.
  intros HP HQ. unfold DualMode.mounted.
  destruct (dual_fetchMockData_lists P Q HP HQ DualMode.initial
              {| random_calls := 0; now_calls := 0 |})
    as (st1 & w1 & E1 & Ff & Fa).
  destruct (dual_then_handleSearch _ _ _ _ E1) as (st2 & E2 & Hs).
  rewrite E2. cbn [fst snd].
  destruct Hs as (-> & -> & _). now split.
Qed.

Lemma mounted_loaded :
  loadedShape (fst DualMode.mounted) /\ settled (fst DualMode.mounted).
Proof.
  unfold DualMode.mounted.
  destruct (dual_fetchMockData_status DualMode.initial
              {| random_calls := 0; now_calls := 0 |})
    as (st1 & w1 & E1 & Lf & La & Herr & Hld & _).
  destruct (dual_then_handleSearch_settled _ _ _ _ E1)
    as (st2 & E2 & Hs & Hset).
  rewrite E2. cbn [fst snd]. split; [| exact Hset].
  destruct Hs as (Hf & Ha & _ & _ & He & _ & _ & Hl).
  unfold loadedShape. rewrite Hf, Ha, He, Hl. now repeat split.
Qed.

Lemma recordPanel_no_notice (st : DualMode.State) (msg : jsstring) :
  DualMode.recordPanel st <> DualMode.ErrorNotice msg.
Proof.
  unfold DualMode.recordPanel.
  destruct (DualMode.searchType st);
    [destruct (DualMode.filteredFlights st), (DualMode.selectedFlight st)
    | destruct (DualMode.filteredAirports st), (DualMode.selectedAirport st)];
    discriminate.
Qed.

Lemma loaded_no_retry (st : DualMode.State) (w : World) :
  loadedShape st -> DualMode.step DualMode.Retry (st, w) = None.
Proof.
  intros (Hl & He & _). unfold DualMode.step. cbn [DualMode.handler fst].
  unfold DualMode.sidePanel. rewrite Hl, He.
  pose proof (recordPanel_no_notice st) as Hn.
  destruct (DualMode.recordPanel st); try reflexivity.
  now destruct (Hn message).
Qed.

Lemma step_loaded (e : DualMode.event) (st st' : DualMode.State)
    (w w' : World) :
  DualMode.step e (st, w) = Some (st', w') ->
  loadedShape st -> loadedShape st'.
Proof.
  intros Hstep (Hl & He & Lf & La).
  pose proof (step_effect e st st' w w' Hstep) as Heff.
  unfold loadedShape.
  destruct e; cbn [stepEffect] in Heff;
    unfold sameData, sameStatus in Heff.
  - intuition.
  - destruct Heff as (F2 & Ha & _ & (He' & Hl') & _).
    rewrite Hl', He', Ha, <- (Forall2_length F2). now repeat split.
  - destruct Heff as (_ & _ & (Hf & Ha) & _ & (He' & Hl') & _).
    rewrite Hl', He', Hf, Ha. now repeat split.
  - destruct Heff as (_ & _ & (Hf & Ha) & _ & (He' & Hl') & _).
    rewrite Hl', He', Hf, Ha. now repeat split.
  - destruct Heff as (_ & (Hf & Ha) & _ & (He' & Hl') & _).
    rewrite Hl', He', Hf, Ha. now repeat split.
  - destruct Heff as (_ & _ & _ & _ & (Hf & Ha) & _ & (He' & Hl')).
    rewrite Hl', He', Hf, Ha. now repeat split.
  - destruct Heff as (_ & _ & _ & _ & (Hf & Ha) & _ & (He' & Hl')).
    rewrite Hl', He', Hf, Ha. now repeat split.
Qed.

Lemma step_settled (e : DualMode.event) (st st' : DualMode.State)
    (w w' : World) :
  DualMode.step e (st, w) = Some (st', w') -> settled st -> settled st'.
Proof.
  intros Hstep Hset.
  pose proof (step_effect e st st' w w' Hstep) as Heff.
  destruct e; cbn [stepEffect] in Heff; try (now intuition).
  - destruct Heff as (_ & _ & _ & (Hq & Hty) & (Hf & Ha) & (Hff & Hfa) & _).
    unfold settled, derivedFlights, derivedAirports in *.
    rewrite Hff, Hfa, Hq, Hty, Hf, Ha. exact Hset.
  - destruct Heff as (_ & _ & _ & (Hq & Hty) & (Hf & Ha) & (Hff & Hfa) & _).
    unfold settled, derivedFlights, derivedAirports in *.
    rewrite Hff, Hfa, Hq, Hty, Hf, Ha. exact Hset.
Qed.

Lemma reachable_loaded_settled (s : DualMode.State * World) :
  DualMode.reachable s -> loadedShape (fst s) /\ settled (fst s).
Proof.
  induction 1 as [| e [st w] [st' w'] Hs [IHl IHs] Hstep].
  - exact mounted_loaded.
  - cbn [fst] in *. split.
    + eapply step_loaded; eauto.
    + eapply step_settled; eauto.
Qed.

Lemma step_Tick_with (Inv : DualMode.Flight -> Prop)
    (R : DualMode.Flight -> DualMode.Flight -> Prop)
    (st st' : DualMode.State) (w w' : World) :
  (forall f w, Inv f ->
     exists f' w', DualMode.perturb f w = (Normal f', w') /\ R f f') ->
  Forall Inv (DualMode.flights st) ->
  DualMode.step DualMode.Tick (st, w) = Some (st', w') ->
  Forall2 R (DualMode.flights st) (DualMode.flights st').
Proof.
  intros Hp Hinv Hstep.
  destruct (dual_tick_run Inv R Hp st w Hinv) as (st1 & w1 & E1 & F2 & _).
  destruct (dual_then_handleSearch _ _ _ _ E1) as (st2 & E2 & Hs).
  unfold DualMode.step in Hstep. cbn [DualMode.handler fst] in Hstep.
  rewrite E2 in Hstep. injection Hstep as <- _.
  now rewrite (proj1 Hs).
Qed.

(** A property of the flights that the generator establishes and [perturb]
    keeps, and a property of the airports that the generator establishes,
    hold in every state the component reaches. *)
Lemma reachable_lists (P : DualMode.Flight -> Prop)
    (Q : DualMode.Airport -> Prop) :
  (forall w, exists f w', DualMode.mockFlight w = (Normal f, w') /\ P f) ->
  (forall w, exists a w', DualMode.mockAirport w = (Normal a, w') /\ Q a) ->
  (forall f w, P f ->
     exists f' w', DualMode.perturb f w = (Normal f', w') /\ P f') ->
  forall s, DualMode.reachable s ->
    Forall P (DualMode.flights (fst s))
    /\ Forall Q (DualMode.airports (fst s)).
Proof.
  intros HP HQ Hkeep s Hs.
  induction Hs as [| e [st w] [st' w'] Hs [IHf IHa] Hstep].
  - now apply mounted_lists.
  - cbn [fst] in *.
    pose proof (step_effect e st st' w w' Hstep) as Heff.
    destruct e; cbn [stepEffect] in Heff; unfold sameData in Heff.
    + rewrite (loaded_no_retry st w) in Hstep; [discriminate |].
      now apply (reachable_loaded_settled (st, w)).
    + destruct Heff as (_ & Ha & _). rewrite Ha. split; [| exact IHa].
      eapply Forall2_right;
        [| exact (step_Tick_with P (fun _ f' => P f') st st' w w' Hkeep IHf
                    Hstep)].
      auto.
    + destruct Heff as (_ & _ & (-> & ->) & _). now split.
    + destruct Heff as (_ & _ & (-> & ->) & _). now split.
    + destruct Heff as (_ & (-> & ->) & _). now split.
    + destruct Heff as (_ & _ & _ & _ & (-> & ->) & _). now split.
    + destruct Heff as (_ & _ & _ & _ & (-> & ->) & _). now split.
Qed.

Lemma perturb_keeps_format (HR : RandomUnit H) (f : DualMode.Flight)
    (w : World) :
  mockFlightFormat f /\ motionInRange f ->
  exists f' w',
    DualMode.perturb f w = (Normal f', w')
    /\ (mockFlightFormat f' /\ motionInRange f').
Proof.
  intros [Hfmt (_ & _ & Hhead)].
  destruct (perturb_frame f w) as (f1 & w1 & E1 & Hsame).
  destruct (perturb_bounds f w HR Hhead) as (f2 & w2 & E2 & Hb).
  rewrite E1 in E2. injection E2 as <- <-.
  exists f1, w1. split; [exact E1 |]. split.
  - destruct Hfmt as (a & n & m & Hin & Hn & Hm & Ei & Et & Eai & Eaa & Hd
                      & Har & Hst).
    destruct Hsame as (Si & St & Sd & Sa & Sai & Saa & Sst).
    exists a, n, m. rewrite Si, St, Sd, Sa, Sai, Saa, Sst. intuition.
  - destruct Hb as (_ & _ & _ & [Ha0 Ha1] & _ & Hsp & _ & Hh).
    unfold motionInRange. split; [| now split].
    split; [exact Ha0 |]. eapply Qle_lt_trans; [exact Ha1 | reflexivity].
Qed.

End DualInvariants.

Lemma filter_Forall2 {A : Type} (R : A -> A -> Prop) (p : A -> bool)
    (l l' : list A) :
  (forall x y, R x y -> p y = p x) ->
  Forall2 R l l' -> Forall2 R (List.filter p l) (List.filter p l').
Proof.
  intros Hp. induction 1 as [| x y l l' Rxy F IH]; simpl; [constructor |].
  rewrite (Hp x y Rxy). destruct (p x); [constructor |]; assumption.
Qed.

Lemma sameButMotion_matches {H : Host} (q : jsstring)
    (f f' : DualMode.Flight) :
  sameButMotion f f' -> DualMode.flightMatches q f' = DualMode.flightMatches q f.
Proof.
  intros (Hi & Ht & _). unfold DualMode.flightMatches. now rewrite Hi, Ht.
Qed.

(** X1: [handleSearch] of the flight/airport component is idempotent: run on
    the state it has just produced, it completes and leaves that state as it
    is. *)
Theorem dual_handleSearch_idempotent {H : Host} (st : DualMode.State)
    (w : World) :
  exists st',
    DualMode.handleSearch (st, w) = (Normal tt, (st', w))
    /\ DualMode.handleSearch (st', w) = (Normal tt, (st', w)).
Proof.
  destruct (dual_handleSearch_settled st w) as (st1 & E1 & _ & Hset1).
  exists st1. split; [exact E1 |].
  destruct (dual_handleSearch_run st1 w) as (st2 & E2 & Hs & Ef & Ea).
  rewrite E2. do 2 f_equal. f_equal.
  apply dual_state_ext; [exact Hs |].
  destruct Hset1 as [Hf Ha]. unfold sameSubsets.
  rewrite Ef, Ea, Hf, Ha. now split.
Qed.

(** X2: in every state the flight/airport component reaches, the two subsets
    on display are the ones [handleSearch] computes from the current query,
    mode and lists; so a click on the search button changes nothing. *)
Theorem search_button_changes_nothing {H : Host}
    (s : DualMode.State * World) :
  DualMode.reachable s ->
  settled (fst s) /\ DualMode.step DualMode.ClickSearch s = Some s.
Proof.
  intros Hs. destruct (reachable_loaded_settled s Hs) as [_ Hset].
  split; [exact Hset |]. destruct s as [st w]. cbn [fst] in Hset.
  destruct (dual_handleSearch_run st w) as (st2 & E2 & Hsame & Ef & Ea).
  unfold DualMode.step. cbn [DualMode.handler fst]. rewrite E2.
  do 2 f_equal. apply dual_state_ext; [exact Hsame |].
  destruct Hset as [Hf Ha]. unfold sameSubsets.
  rewrite Ef, Ea, Hf, Ha. now split.
Qed.

Lemma search_button_changes_nothing_witness :
  DualMode.reachable (H := sampleHost) (DualMode.mounted (H := sampleHost))
  /\ DualMode.step (H := sampleHost) DualMode.ClickSearch
       (DualMode.mounted (H := sampleHost))
     = Some (DualMode.mounted (H := sampleHost)).
Proof.
  split; [exact (DualMode.reach_mount (H := sampleHost)) |].
  exact (proj2 (search_button_changes_nothing (H := sampleHost)
                  (DualMode.mounted (H := sampleHost))
                  (DualMode.reach_mount (H := sampleHost)))).
Defined.

(** X3: the flight/airport component, once mounted, always holds a hundred
    flights and fifty airports, with the spinner off and no error: the error
    notice is never shown and its retry button never available, that is, the
    [catch] branch of [fetchMockData] is never taken. *)
Theorem running_component_never_fails {H : Host}
    (s : DualMode.State * World) :
  DualMode.reachable s ->
  loadedShape (fst s)
  /\ DualMode.step DualMode.Retry s = None
  /\ DualMode.sidePanel (fst s) <> DualMode.Spinner
  /\ forall msg, DualMode.sidePanel (fst s) <> DualMode.ErrorNotice msg.
Proof.
  intros Hs. destruct (reachable_loaded_settled s Hs) as [Hl _].
  destruct s as [st w]. cbn [fst] in *.
  split; [exact Hl |]. split; [now apply loaded_no_retry |].
  destruct Hl as (Hld & He & _).
  unfold DualMode.sidePanel. rewrite Hld, He.
  split; [| intros msg; apply recordPanel_no_notice].
  unfold DualMode.recordPanel.
  destruct (DualMode.searchType st);
    [destruct (DualMode.filteredFlights st), (DualMode.selectedFlight st)
    | destruct (DualMode.filteredAirports st), (DualMode.selectedAirport st)];
    discriminate.
Qed.

Lemma running_component_never_fails_witness :
  DualMode.reachable (H := sampleHost) afterBothClicks
  /\ loadedShape (fst afterBothClicks)
  /\ DualMode.step (H := sampleHost) DualMode.Retry afterBothClicks = None.
Proof.
  assert (Hr : DualMode.reachable (H := sampleHost) afterBothClicks).
  { eapply run_reachable; [apply DualMode.reach_mount |].
    exact (proj1 afterBothClicks_facts). }
  split; [exact Hr |].
  destruct (running_component_never_fails (H := sampleHost) afterBothClicks Hr)
    as (Hl & Hretry & _).
  now split.
Defined.

(** X4: the selections change by a click on a marker only: every other event
    (tick, retry, typing a query, changing the mode, the search button)
    leaves the selected flight and the selected airport as they are, also
    when the selected record is no longer listed or has moved. *)
Theorem selection_changes_only_by_click {H : Host} (e : DualMode.event)
    (s s' : DualMode.State * World) :
  DualMode.step e s = Some s' ->
  isClick e = false ->
  sameSelection (fst s) (fst s').
Proof.
  destruct s as [st w], s' as [st' w']. intros Hstep Hc.
  pose proof (step_effect e st st' w w' Hstep) as Heff. cbn [fst].
  destruct e; cbn [stepEffect] in Heff; try discriminate; intuition.
Qed.

Lemma selection_changes_only_by_click_witness :
  exists s',
    DualMode.step (H := sampleHost) (DualMode.ChangeSearchTerm (str "zz"))
      (sampleSelecting DualMode.flight, world0) = Some s'
    /\ DualMode.filteredFlights (fst s') = []
    /\ sameSelection (sampleSelecting DualMode.flight) (fst s').
Proof.
  eexists. split; [vm_compute; reflexivity |]. split; [reflexivity |].
  apply (selection_changes_only_by_click (H := sampleHost)
           (DualMode.ChangeSearchTerm (str "zz"))
           (sampleSelecting DualMode.flight, world0));
    [vm_compute; reflexivity | reflexivity].
Defined.

(** X5: a tick does not change which records are displayed: when the subsets
    are the ones of the current query, the tick completes and the flights
    displayed after it are the flights displayed before, in the same order
    and moved only, and the airports displayed are the same. *)
Theorem tick_keeps_displayed_records {H : Host}
    (s : DualMode.State * World) :
  settled (fst s) ->
  exists s',
    DualMode.step DualMode.Tick s = Some s'
    /\ Forall2 sameButMotion (DualMode.filteredFlights (fst s))
         (DualMode.filteredFlights (fst s'))
    /\ DualMode.filteredAirports (fst s') = DualMode.filteredAirports (fst s).
Proof.
  intros [Hf Ha].
  destruct (step_Tick_total s) as (st1 & w1 & st2 & _ & E & _ & _).
  destruct s as [st w]. cbn [fst] in *.
  exists (st2, w1). split; [exact E |]. cbn [fst].
  destruct (step_effect _ _ _ _ _ E)
    as (F2 & Hair & _ & _ & (Hq & Hty) & (Hf2 & Ha2)).
  rewrite Hf, Ha, Hf2, Ha2.
  unfold derivedFlights, derivedAirports. rewrite Hq, Hty, Hair.
  split; [| reflexivity].
  destruct (isEmpty (trim (DualMode.searchTerm st))); [exact F2 |].
  destruct (DualMode.searchType st); [| constructor].
  apply filter_Forall2; [| exact F2].
  intros x y. apply sameButMotion_matches.
Qed.

Lemma tick_keeps_displayed_records_witness :
  settled (H := sampleHost) (sampleSelecting DualMode.flight)
  /\ exists s',
       DualMode.step (H := sampleHost) DualMode.Tick
         (sampleSelecting DualMode.flight, world0) = Some s'
       /\ Forall2 sameButMotion
            (DualMode.filteredFlights (sampleSelecting DualMode.flight))
            (DualMode.filteredFlights (fst s')).
Proof.
  assert (Hs : settled (H := sampleHost) (sampleSelecting DualMode.flight))
    by (split; reflexivity).
  split; [exact Hs |].
  destruct (tick_keeps_displayed_records (H := sampleHost)
              (sampleSelecting DualMode.flight, world0) Hs)
    as (s' & E & F2 & _).
  exists s'. now split.
Defined.

(** X6: every flight the flight/airport component ever holds is written as
    the generator writes it: [flight_icao] is one of the ten airline codes
    followed by a number from 1000 to 9999, [flight_iata] the same code
    followed by a number from 100 to 999, [airline_icao] the code followed by
    "A", [dep_iata] and [arr_iata] three capital letters and [status] one of
    the five statuses; ticks do not touch these fields. *)
Theorem reachable_flights_format {H : Host} (s : DualMode.State * World) :
  RandomUnit H ->
  DualMode.reachable s ->
  Forall mockFlightFormat (DualMode.flights (fst s)).
Proof.
  intros HR Hs.
  destruct (reachable_lists (fun f => mockFlightFormat f /\ motionInRange f)
              mockAirportFormat (dual_mockFlight_format HR)
              (dual_mockAirport_format HR)
              (fun f w => perturb_keeps_format HR f w) s Hs) as [Ff _].
  eapply Forall_impl; [| exact Ff]. now intros f [P _].
Qed.

Lemma reachable_flights_format_witness :
  RandomUnit sampleHost
  /\ DualMode.reachable (H := sampleHost) (DualMode.mounted (H := sampleHost))
  /\ Forall mockFlightFormat
       (DualMode.flights (fst (DualMode.mounted (H := sampleHost)))).
Proof.
  split; [exact sampleHost_random |].
  split; [exact (DualMode.reach_mount (H := sampleHost)) |].
  exact (reachable_flights_format (H := sampleHost)
           (DualMode.mounted (H := sampleHost)) sampleHost_random
           (DualMode.reach_mount (H := sampleHost))).
Defined.

(** X7: every flight the flight/airport component ever holds has its
    altitude in [5000, 45000), its speed in [300, 800] and its heading in
    [0, 360): the generator starts there (its altitudes go beyond the 40000
    the ticks clamp to) and the ticks stay there. *)
Theorem reachable_flights_motion {H : Host} (s : DualMode.State * World) :
  RandomUnit H ->
  DualMode.reachable s ->
  Forall motionInRange (DualMode.flights (fst s)).
Proof.
  intros HR Hs.
  destruct (reachable_lists (fun f => mockFlightFormat f /\ motionInRange f)
              mockAirportFormat (dual_mockFlight_format HR)
              (dual_mockAirport_format HR)
              (fun f w => perturb_keeps_format HR f w) s Hs) as [Ff _].
  eapply Forall_impl; [| exact Ff]. now intros f [_ P].
Qed.

Lemma reachable_flights_motion_witness :
  RandomUnit sampleHost
  /\ DualMode.reachable (H := sampleHost) (DualMode.mounted (H := sampleHost))
  /\ Forall motionInRange
       (DualMode.flights (fst (DualMode.mounted (H := sampleHost)))).
Proof.
  split; [exact sampleHost_random |].
  split; [exact (DualMode.reach_mount (H := sampleHost)) |].
  exact (reachable_flights_motion (H := sampleHost)
           (DualMode.mounted (H := sampleHost)) sampleHost_random
           (DualMode.reach_mount (H := sampleHost))).
Defined.

(** X8: every airport the flight/airport component ever holds is written as
    the generator writes it: [iata_code] is three capital letters,
    [icao_code] is "K" followed by it, [airport_name] is it followed by
    " International Airport", [city_iata_code] its first two letters and
    [country_name] one of the ten countries; no handler rewrites an
    airport. *)
Theorem reachable_airports_format {H : Host} (s : DualMode.State * World) :
  RandomUnit H ->
  DualMode.reachable s ->
  Forall mockAirportFormat (DualMode.airports (fst s)).
Proof.
  intros HR Hs.
  destruct (reachable_lists (fun f => mockFlightFormat f /\ motionInRange f)
              mockAirportFormat (dual_mockFlight_format HR)
              (dual_mockAirport_format HR)
              (fun f w => perturb_keeps_format HR f w) s Hs) as [_ Fa].
  exact Fa.
Qed.

Lemma reachable_airports_format_witness :
  RandomUnit sampleHost
  /\ DualMode.reachable (H := sampleHost) (DualMode.mounted (H := sampleHost))
  /\ Forall mockAirportFormat
       (DualMode.airports (fst (DualMode.mounted (H := sampleHost)))).
Proof.
  split; [exact sampleHost_random |].
  split; [exact (DualMode.reach_mount (H := sampleHost)) |].
  exact (reachable_airports_format (H := sampleHost)
           (DualMode.mounted (H := sampleHost)) sampleHost_random
           (DualMode.reach_mount (H := sampleHost))).
Defined.

(** * Further properties of the live-source component *)

(** On a state that is not null or undefined, only the call sign can make
    [mapState] throw. *)
Lemma mapState_shape (v : jsval) :
  (LiveVariant.get_index v 0 = Throw TypeError
   /\ LiveVariant.mapState v = Throw TypeError)
  \/ exists x0 x1,
       LiveVariant.get_index v 0 = Normal x0
       /\ LiveVariant.get_index v 1 = Normal x1
       /\ ((LiveVariant.optional_trim x1 = Throw TypeError
            /\ LiveVariant.mapState v = Throw TypeError)
           \/ exists t f,
                LiveVariant.optional_trim x1 = Normal t
                /\ LiveVariant.mapState v = Normal f
                /\ LiveVariant.icao24 f = x0
                /\ LiveVariant.callsign f
                   = LiveVariant.or_else t (VStr (str "N/A"))).
Proof.
  destruct v; try (left; split; reflexivity); right;
    unfold LiveVariant.mapState; cbn [LiveVariant.get_index andThen];
    (eexists; eexists; split; [reflexivity |]; split; [reflexivity |]);
    match goal with
    | |- context [LiveVariant.optional_trim ?x] => destruct x
    end;
    cbn [LiveVariant.optional_trim andThen];
    first [ left; split; reflexivity
          | right; eexists; eexists; split; [reflexivity |];
            split; [reflexivity |]; split; reflexivity ].
Qed.

Lemma optional_trim_completes (x : jsval) :
  (exists t, LiveVariant.optional_trim x = Normal t)
  <-> (x = VUndefined \/ x = VNull \/ exists s, x = VStr s).
Proof.
  split.
  - intros [t E]. destruct x; cbn in E; try discriminate; eauto.
  - intros [-> | [-> | [s ->]]]; cbn; eauto.
Qed.

(** X9: [mapState] completes exactly on the states that are neither null nor
    undefined and hold a string, null or undefined at position 1 (so also on
    a state that is a number or a short array, whose missing elements become
    undefined fields); on every other state it throws a TypeError. *)
Theorem mapState_completes_iff (v : jsval) :
  ((exists f, LiveVariant.mapState v = Normal f) <-> mappable v)
  /\ (forall e, LiveVariant.mapState v = Throw e -> e = TypeError).
Proof.
  destruct (mapState_shape v)
    as [[E0 Em] | (x0 & x1 & E0 & E1 & [[Et Em] | (t & f & Et & Em & _)])].
  - split.
    + split.
      * intros [f Ef]. rewrite Em in Ef. discriminate.
      * intros (x & Ex & _). destruct v; cbn in E0, Ex; discriminate.
    + intros e Ee. rewrite Em in Ee. now injection Ee as <-.
  - split.
    + split.
      * intros [f Ef]. rewrite Em in Ef. discriminate.
      * intros (x & Ex & Hx). rewrite E1 in Ex. injection Ex as <-.
        apply optional_trim_completes in Hx as [t Ht].
        rewrite Et in Ht. discriminate.
    + intros e Ee. rewrite Em in Ee. now injection Ee as <-.
  - split.
    + split.
      * intros _. exists x1. split; [exact E1 |].
        apply optional_trim_completes. now exists t.
      * intros _. now exists f.
    + intros e Ee. rewrite Em in Ee. discriminate.
Qed.

Example mapState_of_a_number :
  exists f,
    LiveVariant.mapState (VNum 5) = Normal f
    /\ LiveVariant.icao24 f = VUndefined
    /\ LiveVariant.callsign f = VStr (str "N/A").
Proof. eexists. split; [reflexivity |]. split; reflexivity. Qed.

Lemma traverse_all {A B : Type} (f : A -> completion B)
    (R : A -> B -> Prop) (l : list A) :
  Forall (fun x => exists y, f x = Normal y /\ R x y) l ->
  exists l', traverse f l = Normal l' /\ Forall2 R l l'.
Proof.
  induction 1 as [| x l (y & Ey & Rxy) Hl (l' & El & F2)]; simpl.
  - exists []. split; [reflexivity | constructor].
  - rewrite Ey, El. simpl. exists (y :: l'). split; [reflexivity |].
    now constructor.
Qed.

Lemma mappable_mappedFrom (v : jsval) :
  mappable v -> exists f, LiveVariant.mapState v = Normal f /\ mappedFrom v f.
Proof.
  intros Hm. apply (proj1 (mapState_completes_iff v)) in Hm as [f Ef].
  exists f. split; [exact Ef |]. split; [exact Ef |].
  destruct (mapState_shape v)
    as [[E0 Em] | (x0 & x1 & E0 & E1 & [[Et Em] | (t & f' & Et & Em & Ei & _)])];
    rewrite Em in Ef; try discriminate.
  injection Ef as <-. now rewrite E0, Ei.
Qed.

(** X10: a live refresh keeps every state of the payload: when every state
    can be mapped, the snapshot is live and its flights are the images of
    the states, one for one and in the order of the payload, the identity of
    a flight being whatever the state holds at position 0 (also null);
    nothing is dropped, merged or reordered. *)
Theorem live_refresh_keeps_every_state {H : Host} (data : jsval)
    (l : list jsval) (st : LiveVariant.State) (w : World) :
  truthy data = true ->
  LiveVariant.get_named data (str "states") = Normal (VArr l) ->
  Forall mappable l ->
  exists st' records,
    LiveVariant.fetchFlights (LiveVariant.Resolved data) (st, w)
    = (Normal tt, (st', w))
    /\ live records st'
    /\ Forall2 mappedFrom l records.
Proof.
  intros Hd Hs Hl.
  destruct (traverse_all LiveVariant.mapState mappedFrom l) as (records & Et & F2).
  { eapply Forall_impl; [| exact Hl]. intros v. apply mappable_mappedFrom. }
  destruct (live_fetchFlights_run (LiveVariant.Resolved data) st w)
    as (st' & w' & E & _ & _ & _ & Hlive).
  assert (Er : liveRecords (LiveVariant.Resolved data) = Normal records)
    by (simpl; now rewrite Hd, Hs).
  rewrite Er in Hlive. destruct Hlive as [Hlive ->].
  now exists st', records.
Qed.

Lemma live_refresh_keeps_every_state_witness :
  exists st' records,
    LiveVariant.fetchFlights (H := sampleHost)
      (LiveVariant.Resolved
         (VObj [(str "states",
                 VArr [sampleVector1; VArr [VNull; VStr (str " ")];
                       sampleVector1])]))
      (sampleLiveState "", world0)
    = (Normal tt, (st', world0))
    /\ live records st'
    /\ List.map LiveVariant.icao24 records
       = [VStr (str "3c6444"); VNull; VStr (str "3c6444")].
Proof.
  destruct (live_refresh_keeps_every_state (H := sampleHost)
              (VObj [(str "states",
                      VArr [sampleVector1; VArr [VNull; VStr (str " ")];
                            sampleVector1])])
              [sampleVector1; VArr [VNull; VStr (str " ")]; sampleVector1]
              (sampleLiveState "") world0 eq_refl eq_refl)
    as (st' & records & E & Hlive & F2).
  { repeat (apply Forall_cons;
              [eexists; split; [reflexivity |]; right; right; eexists;
               reflexivity |]).
    apply Forall_nil. }
  exists st', records. split; [exact E |]. split; [exact Hlive |].
  inversion F2 as [| v1 f1 l1 r1 [_ H1] F2' ]; subst.
  inversion F2' as [| v2 f2 l2 r2 [_ H2] F2'' ]; subst.
  inversion F2'' as [| v3 f3 l3 r3 [_ H3] F2''' ]; subst.
  inversion F2'''; subst.
  cbn in H1, H2, H3. injection H1 as H1. injection H2 as H2.
  injection H3 as H3. cbn [List.map]. now rewrite <- H1, <- H2, <- H3.
Defined.

(** X11: after a refresh the provenance flag, the error and the outcome of
    the request agree: the snapshot is marked as mock data exactly when the
    live fetch failed, and exactly then an error is set; a successful
    refresh clears the flag and the error of an earlier failure.  In both
    cases the spinner is off and the whole new list is displayed. *)
Theorem refresh_flags_agree {H : Host} (outcome : LiveVariant.fetch_outcome)
    (st : LiveVariant.State) (w : World) :
  exists st' w',
    LiveVariant.fetchFlights outcome (st, w) = (Normal tt, (st', w'))
    /\ LiveVariant.loading st' = false
    /\ LiveVariant.filteredFlights st' = LiveVariant.flights st'
    /\ (LiveVariant.usingMockData st' = true <-> liveFailure outcome)
    /\ (LiveVariant.error st' <> None <-> liveFailure outcome).
Proof.
  destruct (live_fetchFlights_run outcome st w)
    as (st' & w' & E & Hl & _ & _ & Hcase).
  exists st', w'. split; [exact E |]. split; [exact Hl |].
  rewrite liveFailure_throws.
  destruct (liveRecords outcome) as [records | e].
  - destruct Hcase as [(Hm & He & Hf & Hff) _].
    rewrite Hm, He, Hf, Hff. split; [reflexivity |].
    split; split; try discriminate; try (intros [e E']; discriminate);
      intros Hn; now destruct Hn.
  - destruct Hcase as (Hm & _ & Hff & msg & He & _).
    rewrite Hm, He. split; [exact Hff |].
    split; split; eauto; discriminate.
Qed.

(** ** Trimming *)

Lemma trimStart_noLeadingSpace (s : jsstring) : noLeadingSpace (trimStart s).
Proof.
  induction s as [| c s IH]; simpl; [exact I |].
  destruct (isWhiteSpace c) eqn:E; [exact IH | exact E].
Qed.

Lemma trimStart_fixed (s : jsstring) : noLeadingSpace s -> trimStart s = s.
Proof.
  destruct s as [| c s]; simpl; [reflexivity |]. now intros ->.
Qed.

Lemma trimStart_suffix (s : jsstring) : exists p, s = p ++ trimStart s.
Proof.
  induction s as [| c s [p IH]]; simpl; [now exists [] |].
  destruct (isWhiteSpace c).
  - exists (c :: p). simpl. now rewrite <- IH.
  - now exists [].
Qed.

Lemma noLeadingSpace_app (s t : jsstring) :
  s <> [] -> noLeadingSpace (s ++ t) -> noLeadingSpace s.
Proof. destruct s; [congruence | auto]. Qed.

(** What [trim] returns neither starts nor ends with white space, so
    trimming it again changes nothing. *)
Lemma trim_idempotent (s : jsstring) : trim (trim s) = trim s.
Proof.
  unfold trim, trimEnd.
  set (t := trimStart s).
  set (u := trimStart (rev t)).
  assert (Ht : noLeadingSpace t) by apply trimStart_noLeadingSpace.
  assert (Hu : noLeadingSpace u) by apply trimStart_noLeadingSpace.
  assert (Hr : noLeadingSpace (rev u)).
  { destruct (trimStart_suffix (rev t)) as [p Ep]. fold u in Ep.
    apply (f_equal (@rev N)) in Ep. rewrite rev_involutive, rev_app_distr in Ep.
    destruct u as [| c u']; [exact I |].
    apply noLeadingSpace_app with (t := rev p).
    - intros E. apply (f_equal (@List.length N)) in E.
      rewrite length_rev in E. discriminate.
    - now rewrite <- Ep. }
  rewrite (trimStart_fixed (rev u) Hr), rev_involutive.
  now rewrite (trimStart_fixed u Hu).
Qed.

(** ** Identities and call signs of the live-source component *)

Lemma filterM_throws {S A : Type} (f : A -> Eff S bool) (e : exn)
    (l : list A) (s : S) :
  (forall x s, (exists b, f x s = (Normal b, s)) \/ f x s = (Throw e, s)) ->
  Exists (fun x => forall s, f x s = (Throw e, s)) l ->
  filterM f l s = (Throw e, s).
Proof.
  intros Hf. induction 1 as [x l Hx | x l Hl IH]; simpl; unfold bind at 1.
  - now rewrite Hx.
  - destruct (Hf x s) as [[b ->] | ->]; [| reflexivity].
    unfold bind at 1. now rewrite IH.
Qed.

Section LiveSearchErrors.
Context {H : Host}.

Lemma live_flightMatches_cases {S : Type} (q : jsstring)
    (f : LiveVariant.Flight) (s : S) :
  (exists b, LiveVariant.flightMatches q f s = (Normal b, s))
  \/ LiveVariant.flightMatches q f s = (Throw TypeError, s).
Proof.
  unfold LiveVariant.flightMatches, LiveVariant.method_toLowerCase, bind.
  destruct (LiveVariant.icao24 f); try (right; reflexivity). cbn.
  destruct (includes (toLowerCase s0) q).
  - left. eexists. reflexivity.
  - destruct (LiveVariant.callsign f); cbn;
      repeat match goal with
             | |- context [if ?c then _ else _] => destruct c
             end;
      first [right; reflexivity | left; eexists; reflexivity].
Qed.

Lemma live_flightMatches_no_identity {S : Type} (q : jsstring)
    (f : LiveVariant.Flight) (s : S) :
  noStringIdentity f ->
  LiveVariant.flightMatches q f s = (Throw TypeError, s).
Proof.
  intros Hn. unfold LiveVariant.flightMatches, LiveVariant.method_toLowerCase,
    bind.
  destruct (LiveVariant.icao24 f) eqn:E; try reflexivity.
  now destruct (Hn s0).
Qed.

End LiveSearchErrors.

(** X12: the search of the live-source component throws on a flight without
    a string identity: when the trimmed query is not empty and some flight of
    the list has an [icao24] that is not a string (null, as [mapState] keeps
    it), [handleSearch] throws a TypeError and writes nothing, so the subset
    on display is not updated. *)
Theorem live_search_throws_without_identity {H : Host}
    (st : LiveVariant.State) (w : World) :
  trim (LiveVariant.searchTerm st) <> [] ->
  Exists noStringIdentity (LiveVariant.flights st) ->
  LiveVariant.handleSearch (st, w) = (Throw TypeError, (st, w)).
Proof.
  intros Hq Hex. unfold LiveVariant.handleSearch, bind at 1, state.
  cbn [fst]. apply isEmpty_false in Hq. rewrite Hq.
  unfold bind at 1.
  rewrite (filterM_throws _ TypeError).
  - reflexivity.
  - intros x s. apply live_flightMatches_cases.
  - eapply Exists_impl; [| exact Hex].
    intros f Hf s. now apply live_flightMatches_no_identity.
Qed.

Lemma live_search_throws_without_identity_witness :
  snd (LiveVariant.fetchFlights (H := sampleHost)
         (LiveVariant.Resolved
            (VObj [(str "states", VArr [sampleVector1; VArr [VNull]])]))
         (sampleLiveNoIdentity, world0))
  = (sampleLiveNoIdentity, world0)
  /\ trim (LiveVariant.searchTerm sampleLiveNoIdentity) <> []
  /\ Exists noStringIdentity (LiveVariant.flights sampleLiveNoIdentity)
  /\ LiveVariant.handleSearch (H := sampleHost) (sampleLiveNoIdentity, world0)
     = (Throw TypeError, (sampleLiveNoIdentity, world0)).
Proof.
  split; [vm_compute; reflexivity |].
  assert (Hq : trim (LiveVariant.searchTerm sampleLiveNoIdentity) <> [])
    by (vm_compute; discriminate).
  assert (Hex : Exists noStringIdentity
                  (LiveVariant.flights sampleLiveNoIdentity)).
  { apply Exists_cons_tl, Exists_cons_hd. intros s. discriminate. }
  split; [exact Hq |]. split; [exact Hex |].
  exact (live_search_throws_without_identity (H := sampleHost)
           sampleLiveNoIdentity world0 Hq Hex).
Defined.

Lemma interpolate_airline_nonempty (i : Z) :
  LiveVariant.interpolate (js_index LiveVariant.airlines i) <> [].
Proof.
  unfold js_index. destruct (i <? 0)%Z; [discriminate |].
  destruct (nth_in_or_default (Z.to_nat i) LiveVariant.airlines VUndefined)
    as [Hin | ->]; [| discriminate].
  generalize dependent (nth (Z.to_nat i) LiveVariant.airlines VUndefined).
  intros x Hin. unfold LiveVariant.airlines in Hin. simpl in Hin.
  repeat (destruct Hin as [<- | Hin]; [vm_compute; discriminate |]).
  contradiction.
Qed.

Lemma app_nonempty (s t : jsstring) : s <> [] -> s ++ t <> [].
Proof. destruct s; [congruence | discriminate]. Qed.

Section LiveCallsigns.
Context {H : Host}.

Lemma live_mockFlight_callsign (w : World) :
  exists f w', LiveVariant.mockFlight w = (Normal f, w') /\ nonBlankCallsign f.
Proof.
  run_world. eexists; eexists; split; [reflexivity |].
  unfold nonBlankCallsign. cbn [LiveVariant.callsign].
  eexists. split; [reflexivity |].
  apply app_nonempty, interpolate_airline_nonempty.
Qed.

Lemma mapped_callsign (v : jsval) (f : LiveVariant.Flight) :
  LiveVariant.mapState v = Normal f ->
  exists s, LiveVariant.callsign f = VStr s /\ s <> [] /\ trim s = s.
Proof.
  intros Ef.
  destruct (mapState_shape v)
    as [[_ Em] | (x0 & x1 & _ & _ & [[_ Em] | (t & f' & Et & Em & _ & Ec)])];
    rewrite Em in Ef; try discriminate.
  injection Ef as <-. rewrite Ec.
  destruct x1; cbn in Et; try discriminate; injection Et as <-;
    unfold LiveVariant.or_else; cbn [truthy];
    try (exists (str "N/A"); split; [reflexivity |];
         split; [discriminate | reflexivity]).
  destruct (isEmpty (trim s)) eqn:Es; cbn [negb].
  - exists (str "N/A"). split; [reflexivity |].
    split; [discriminate | reflexivity].
  - exists (trim s). split; [reflexivity |].
    split; [now apply isEmpty_false | apply trim_idempotent].
Qed.

Lemma traverse_Forall {A B : Type} (f : A -> completion B) (P : B -> Prop)
    (l : list A) (l' : list B) :
  (forall x y, f x = Normal y -> P y) ->
  traverse f l = Normal l' -> Forall P l'.
Proof.
  intros Hf. revert l'. induction l as [| x l IH]; simpl; intros l' E.
  - injection E as <-. constructor.
  - destruct (f x) as [y | e] eqn:Ey; simpl in E; [| discriminate].
    destruct (traverse f l) as [ys | e]; simpl in E; [| discriminate].
    injection E as <-. constructor; eauto.
Qed.

(** The refresh with a property that both the mapping and the generator
    give to every flight. *)
Lemma live_fetchFlights_Forall (P : LiveVariant.Flight -> Prop) :
  (forall v f, LiveVariant.mapState v = Normal f -> P f) ->
  (forall w, exists f w', LiveVariant.mockFlight w = (Normal f, w') /\ P f) ->
  forall outcome st w,
  exists st' w',
    LiveVariant.fetchFlights outcome (st, w) = (Normal tt, (st', w'))
    /\ Forall P (LiveVariant.flights st').
Proof.
  intros Hmap Hmock outcome st w.
  unfold LiveVariant.fetchFlights. unfold bind at 1.
  cbn [LiveVariant.setLoading setState modify fst snd].
  unfold finally, try_catch.
  match goal with
  | |- context [LiveVariant.fetchLive outcome (?s, w)] =>
      pose proof (live_fetchLive_run outcome s w) as Hlive;
      set (st1 := s) in *
  end.
  destruct (liveRecords outcome) as [records | e] eqn:Er.
  - destruct Hlive as (st2 & E & (_ & _ & Hf & _) & _).
    rewrite E. cbn. eexists; eexists; split; [reflexivity |]. cbn.
    rewrite Hf.
    destruct outcome as [| d]; simpl in Er; [discriminate |].
    destruct (truthy d); [| discriminate].
    destruct (LiveVariant.get_named d (str "states")) as [v | e0];
      simpl in Er; [| discriminate].
    destruct v; try discriminate.
    eapply traverse_Forall; eauto.
  - rewrite Hlive.
    destruct (repeatM_Forall P LiveVariant.mockFlight Hmock (Z.to_nat 100) w)
      as (l & w1 & El & _ & Fl).
    unfold LiveVariant.fetchFallback.
    unfold bind at 1. unfold liftW at 1. cbn [fst snd].
    unfold LiveVariant.generateMockFlights. rewrite El. cbn.
    eexists; eexists; split; [reflexivity |]. exact Fl.
Qed.

End LiveCallsigns.

(** X13: the call sign of a stored flight is never blank.  What [mapState]
    stores is a string that is not empty and has no white space around it
    (the trimmed call sign, or "N/A"); and after a refresh, live or
    synthetic, every flight of the list has a call sign that is a string and
    is not empty. *)
Theorem stored_callsign_never_blank {H : Host} :
  (forall v f, LiveVariant.mapState v = Normal f ->
     exists s, LiveVariant.callsign f = VStr s /\ s <> [] /\ trim s = s)
  /\ (forall outcome st w,
      exists st' w',
        LiveVariant.fetchFlights outcome (st, w) = (Normal tt, (st', w'))
        /\ Forall nonBlankCallsign (LiveVariant.flights st')).
Proof.
  split; [exact mapped_callsign |].
  apply live_fetchFlights_Forall.
  - intros v f Ef. destruct (mapped_callsign v f Ef) as (s & Es & Hs & _).
    now exists s.
  - exact live_mockFlight_callsign.
Qed.

Lemma stored_callsign_never_blank_witness :
  exists s,
    LiveVariant.callsign
      (positional (elementsOf sampleVector1) (VStr (str "DLH123")))
    = VStr s /\ s <> [] /\ trim s = s.
Proof.
  exact (proj1 (stored_callsign_never_blank (H := sampleHost)) sampleVector1
           (positional (elementsOf sampleVector1) (VStr (str "DLH123")))
           eq_refl).
Defined.

(** ** The generator of the live-source component *)



Section LiveGenerated.
Context {H : Host}.
Hypothesis HR : RandomUnit H.


End LiveGenerated.



(** ** Letter case of the query *)

Lemma isWhiteSpace_range (c : N) :
  isWhiteSpace c = true -> (c <= 13 \/ c = 32 \/ 160 <= c)%N.
Proof.
  unfold isWhiteSpace.
  rewrite !orb_true_iff, !andb_true_iff, !N.eqb_eq, !N.leb_le. lia.
Qed.

Lemma isWhiteSpace_asciiLower (c : N) :
  isWhiteSpace (asciiLower c) = isWhiteSpace c.
Proof.
  unfold asciiLower.
  destruct (N.leb 65 c && N.leb c 90) eqn:E; [| reflexivity].
  apply andb_true_iff in E as [E1 E2].
  apply N.leb_le in E1, E2.
  destruct (isWhiteSpace (c + 32)) eqn:Ea, (isWhiteSpace c) eqn:Eb;
    try reflexivity.
  - apply isWhiteSpace_range in Ea. lia.
  - apply isWhiteSpace_range in Eb. lia.
Qed.

Lemma trimStart_asciiLower (s : jsstring) :
  trimStart (List.map asciiLower s) = List.map asciiLower (trimStart s).
Proof.
  induction s as [| c s IH]; simpl; [reflexivity |].
  rewrite isWhiteSpace_asciiLower. now destruct (isWhiteSpace c).
Qed.

Lemma trim_asciiLower (s : jsstring) :
  trim (List.map asciiLower s) = List.map asciiLower (trim s).
Proof.
  unfold trim, trimEnd.
  now rewrite trimStart_asciiLower, <- map_rev, trimStart_asciiLower, map_rev.
Qed.

Lemma asciiLower_idempotent (c : N) : asciiLower (asciiLower c) = asciiLower c.
Proof.
  unfold asciiLower.
  destruct (N.leb 65 c && N.leb c 90) eqn:E; [| now rewrite E].
  apply andb_true_iff in E as [E1 E2]. apply N.leb_le in E1, E2.
  destruct (N.leb 65 (c + 32) && N.leb (c + 32) 90) eqn:E'; [| reflexivity].
  apply andb_true_iff in E' as [_ E4]. apply N.leb_le in E4. lia.
Qed.

Lemma sampleHost_lower_idempotent : LowerIdempotent sampleHost.
Proof.
  intros s. cbn [toLowerCase sampleHost]. rewrite map_map.
  apply map_ext. exact asciiLower_idempotent.
Qed.

Lemma sampleHost_lower_blank : LowerKeepsBlank sampleHost.
Proof.
  intros s. cbn [toLowerCase sampleHost]. rewrite trim_asciiLower.
  now destruct (trim s).
Qed.

Lemma dual_ChangeSearchTerm_total {H : Host} (v : jsstring)
    (st : DualMode.State) (w : World) :
  exists st',
    DualMode.step (DualMode.ChangeSearchTerm v) (st, w) = Some (st', w).
Proof.
  destruct (dual_then_handleSearch (DualMode.setSearchTerm v) (st, w) _ _
              eq_refl) as (st2 & E2 & _).
  exists st2. unfold DualMode.step. cbn [DualMode.handler fst].
  now rewrite E2.
Qed.

(** X15: the search of the flight/airport component ignores the letter case
    of the query: typing a query or typing its lower-cased form gives the
    same two subsets, whatever the mode and the lists.  It is assumed of
    [toLowerCase] that lower-casing twice is lower-casing once and that it
    keeps a blank string blank and any other string not blank. *)
Theorem query_case_is_ignored {H : Host} (q : jsstring)
    (s : DualMode.State * World) :
  LowerIdempotent H ->
  LowerKeepsBlank H ->
  exists s1 s2,
    DualMode.step (DualMode.ChangeSearchTerm q) s = Some s1
    /\ DualMode.step (DualMode.ChangeSearchTerm (toLowerCase q)) s = Some s2
    /\ DualMode.filteredFlights (fst s1) = DualMode.filteredFlights (fst s2)
    /\ DualMode.filteredAirports (fst s1) = DualMode.filteredAirports (fst s2).
Proof.
  intros Hi Hb. destruct s as [st w].
  destruct (dual_ChangeSearchTerm_total q st w) as (st1 & E1).
  destruct (dual_ChangeSearchTerm_total (toLowerCase q) st w) as (st2 & E2).
  exists (st1, w), (st2, w). split; [exact E1 |]. split; [exact E2 |].
  destruct (step_effect _ _ _ _ _ E1)
    as (Hq1 & Ht1 & (Hf1 & Ha1) & _ & _ & (Hs1 & Hs1')).
  destruct (step_effect _ _ _ _ _ E2)
    as (Hq2 & Ht2 & (Hf2 & Ha2) & _ & _ & (Hs2 & Hs2')).
  cbn [fst]. rewrite Hs1, Hs1', Hs2, Hs2'.
  unfold derivedFlights, derivedAirports.
  rewrite Hq1, Hq2, Ht1, Ht2, Hf1, Hf2, Ha1, Ha2, Hb, Hi. now split.
Qed.

Lemma query_case_is_ignored_witness :
  LowerIdempotent sampleHost
  /\ LowerKeepsBlank sampleHost
  /\ exists s1 s2,
       DualMode.step (H := sampleHost) (DualMode.ChangeSearchTerm (str "Dl"))
         (sampleSelecting DualMode.flight, world0) = Some s1
       /\ DualMode.step (H := sampleHost) (DualMode.ChangeSearchTerm (str "dl"))
            (sampleSelecting DualMode.flight, world0) = Some s2
       /\ DualMode.filteredFlights (fst s1) = DualMode.filteredFlights (fst s2)
       /\ DualMode.filteredAirports (fst s1)
          = DualMode.filteredAirports (fst s2).
Proof.
  split; [exact sampleHost_lower_idempotent |].
  split; [exact sampleHost_lower_blank |].
  exact (query_case_is_ignored (H := sampleHost) (str "Dl")
           (sampleSelecting DualMode.flight, world0)
           sampleHost_lower_idempotent sampleHost_lower_blank).
Defined.
